(** * The daily stock ETL pipeline (stock_etl.py, scheduler.py)

    A shallow embedding of the extract / transform / load pipeline and of
    its two callers, followed by the properties of the specification that
    can be settled on it.

    Python's exceptions are values of [exn]; a function that may raise
    returns a [result]; a function that also touches the snapshot
    directory or the database threads a [World].  Output on stdout is not
    part of the model, with one exception: the row count that
    [load_data_to_db] prints is returned as its value. *)

From Stdlib Require Import ZArith Floats Bool List Ascii String Lia.
From Stdlib Require Strings.Byte.
From stdpp Require Import base strings gmap list.
Import ListNotations.

Open Scope Z_scope.
Open Scope string_scope.

(** ** Decoded JSON, as [response.json()] and [json.load] return it *)

Unset Elimination Schemes.
Inductive json : Type :=
| JNull
| JBool (b : bool)
| JInt (n : Z)
| JFloat (x : float)
| JStr (s : string)
| JArr (items : list json)
| JObj (fields : list (string * json)).
Set Elimination Schemes.

(** ** Exceptions and results *)

Inductive exn : Type :=
| RequestException   (* requests.exceptions.RequestException and its subclasses:
                        ConnectionError, Timeout, HTTPError, JSONDecodeError *)
| ValidationError    (* pydantic.ValidationError *)
| KeyError
| TypeError
| AttributeError
| ValueError         (* also json.JSONDecodeError, a subclass of ValueError *)
| FileNotFoundError
| PermissionError    (* an OSError other than FileNotFoundError *)
| RuntimeError (info : json)
| OperationalError   (* sqlite3: no such table *)
| ProgrammingError.  (* sqlite3: a parameter of an unsupported type *)

Inductive result (A : Type) : Type :=
| Ok (a : A)
| Raise (e : exn).
Arguments Ok {A} a.
Arguments Raise {A} e.

Definition rbind {A B} (r : result A) (k : A -> result B) : result B :=
  match r with
  | Ok a => k a
  | Raise e => Raise e
  end.

(** [[f(x) for x in xs]], stopping at the first element that raises. *)
Fixpoint traverse {A B} (f : A -> result B) (xs : list A) : result (list B) :=
  match xs with
  | [] => Ok []
  | x :: xs' =>
      rbind (f x) (fun y => rbind (traverse f xs') (fun ys => Ok (y :: ys)))
  end.

(** ** Dictionaries and the two operators the pipeline applies to a payload *)

(** A Python dict keeps insertion order and has no duplicate key; a JSON
    object is the list of its items, read with the first match. *)
Fixpoint dict_get {V} (k : string) (d : list (string * V)) : option V :=
  match d with
  | [] => None
  | (k', v) :: d' => if String.eqb k k' then Some v else dict_get k d'
  end.

Fixpoint substringb (p s : string) : bool :=
  String.prefix p s ||
  match s with
  | EmptyString => false
  | String _ s' => substringb p s'
  end.

(** [k in data]: key membership on a dict, element membership on a list,
    substring on a string, TypeError on a value that is not iterable. *)
Definition py_contains (k : string) (data : json) : result bool :=
  match data with
  | JObj fields => Ok (match dict_get k fields with Some _ => true | None => false end)
  | JArr items =>
      Ok (existsb (fun x => match x with JStr s => String.eqb s k | _ => false end)
            items)
  | JStr s => Ok (substringb k s)
  | JNull | JBool _ | JInt _ | JFloat _ => Raise TypeError
  end.

(** [data[k]] with a string key. *)
Definition py_getitem (data : json) (k : string) : result json :=
  match data with
  | JObj fields =>
      match dict_get k fields with
      | Some v => Ok v
      | None => Raise KeyError
      end
  | _ => Raise TypeError
  end.

(** ** Path.glob on one directory

    [RAW_DATA_PATH.glob(pattern)] matches the names of the directory
    against one pattern component: [*] stands for any run of characters,
    [?] for one character, everything else for itself.  Bracket classes
    are not modelled, nor is the ValueError of a pattern with [**] inside
    a component; the statements below are about symbols without pattern
    characters. *)

Fixpoint fnmatch (pat name : list ascii) : bool :=
  match pat with
  | [] => match name with [] => true | _ :: _ => false end
  | "*"%char :: pat' =>
      (fix star (name : list ascii) : bool :=
         fnmatch pat' name ||
         match name with
         | [] => false
         | _ :: name' => star name'
         end) name
  | "?"%char :: pat' =>
      match name with
      | [] => false
      | _ :: name' => fnmatch pat' name'
      end
  | c :: pat' =>
      match name with
      | [] => false
      | c' :: name' => Ascii.eqb c c' && fnmatch pat' name'
      end
  end.

Definition glob_match (pattern name : string) : bool :=
  fnmatch (list_ascii_of_string pattern) (list_ascii_of_string name).

Definition pattern_char (c : ascii) : bool :=
  Ascii.eqb c "*" || Ascii.eqb c "?" || Ascii.eqb c "[" || Ascii.eqb c "/".

(** A symbol that is read literally inside a glob pattern. *)
Definition plain_symbol (symbol : string) : bool :=
  forallb (fun c => negb (pattern_char c)) (list_ascii_of_string symbol).

(** ** The two stores the pipeline works on *)

(** What [raw_data/] holds under a name. *)
Inductive file : Type :=
| Snapshot (data : json)   (* a file written by json.dump *)
| Garbled                  (* bytes that json.load cannot decode *)
| Unreadable.              (* a name that open() is denied *)

(** A row of the transformed DataFrame. *)
Module DataFrame.
Record row : Type := mk {
  date : string;
  open : float;
  high : float;
  low : float;
  close : float;
  volume : option Z;                 (* Int64: None is pd.NA *)
  symbol : string;
  extraction_timestamp : string;
  daily_change_percentage : float
}.
End DataFrame.

(** The eight bytes of a numpy.int64, least significant first, negative
    numbers in two's complement. *)
Definition byte_of_Z (z : Z) : Byte.byte :=
  match Byte.of_N (Z.to_N (Z.land z 255)) with
  | Some b => b
  | None => Byte.x00
  end.

Definition int64_bytes (v : Z) : list Byte.byte :=
  map (fun i => byte_of_Z (Z.shiftr v (8 * i))) [0; 1; 2; 3; 4; 5; 6; 7]%Z.

(** A record of table stock_daily_data.  A [None] is SQL NULL.  The
    volume column holds what sqlite3 is handed: the cells of an Int64
    column reach it as numpy.int64, which it stores as the bytes of their
    buffer, a BLOB of eight bytes, not as an INTEGER.  The surrogate id
    is assigned by the engine and is not represented; the table keeps its
    records in insertion order. *)
Module Table.
Record record : Type := mk {
  symbol : string;
  date : string;
  open_price : option float;
  high_price : option float;
  low_price : option float;
  close_price : option float;
  volume : option (list Byte.byte);
  daily_change_percentage : option float;
  extraction_timestamp : string
}.
End Table.

(** The directory raw_data/ is taken to exist, as the module creates it
    when it is imported (l.27), and to hold files only; its names are the
    keys of [raw_data]. *)
Record World : Type := mkWorld {
  raw_data : gmap string file;                   (* RAW_DATA_PATH *)
  stock_daily_data : option (list Table.record)  (* DB_NAME; None: no table yet *)
}.

(** ** What the pipeline takes from outside *)

(** The query string of the GET request. *)
Record params : Type := mkParams {
  p_function : string;
  p_symbol : string;
  p_apikey : option string;
  p_outputsize : string
}.

Inductive response : Type :=
| ConnectionFailed                                   (* requests.get raises *)
| HttpResponse (status_code : Z) (body : option json). (* None: not JSON *)

(** The clock is read by every fetch that saves (l.77) and by every
    transform (l.125).  An [Env] holds one reading of each format: it
    stands for the surroundings of one call; for a whole run it takes
    the readings of its calls to be the same, as they are when the run
    stays within one second. *)
Record Env : Type := mkEnv {
  API_KEY : option string;            (* os.getenv('ALPHA_VANTAGE_API_KEY') *)
  requests_get : params -> response;  (* the server behind BASE_URL *)
  today : string;                     (* datetime.now().strftime('%Y-%m-%d') *)
  now : string                        (* ....strftime('%Y-%m-%d %H:%M:%S') *)
}.

(** The scalar conversions of pydantic and pandas, cell by cell. *)
Record Library : Type := mkLibrary {
  (* a value accepted for a field annotated float / int *)
  pydantic_float : json -> bool;
  pydantic_int : json -> bool;
  (* pd.to_numeric(column): ValueError on a string that is no number,
     TypeError on a cell that is no scalar *)
  to_numeric : json -> result float;
  (* .astype('Int64') of a cell that pd.to_numeric reads as a number:
     Ok None is pd.NA, the value for NaN *)
  to_numeric_Int64 : json -> result (option Z);
  (* pd.to_datetime(column).dt.date, as the ISO text sqlite3 stores *)
  to_datetime_date : string -> result string
}.

Definition SYMBOLS : list string := ["AAPL"; "GOOG"; "MSFT"].

(** ** Statements that raise and change the world *)

Definition M (A : Type) : Type := World -> result A * World.

Definition ret {A} (a : A) : M A := fun w => (Ok a, w).
Definition raise {A} (e : exn) : M A := fun w => (Raise e, w).
Definition lift {A} (r : result A) : M A := fun w => (r, w).
Definition bind {A B} (m : M A) (k : A -> M B) : M B :=
  fun w =>
    match m w with
    | (Ok a, w') => k a w'
    | (Raise e, w') => (Raise e, w')
    end.

Notation "'let*' x ':=' m 'in' k" := (bind m (fun x => k))
  (at level 10, x name, m at level 100, k at level 200).

(** [try: body except classes: handler]; an exception outside [classes]
    goes on to the caller. *)
Definition try_except {A} (body : M A) (classes : exn -> bool) (handler : M A)
  : M A :=
  fun w =>
    match body w with
    | (Ok a, w') => (Ok a, w')
    | (Raise e, w') => if classes e then handler w' else (Raise e, w')
    end.

Section Pipeline.

Variable L : Library.
Variable E : Env.

(** ** Validation (the pydantic models) *)

Definition field (check : json -> bool) (alias : string)
    (d : list (string * json)) : bool :=
  match dict_get alias d with
  | Some v => check v
  | None => false
  end.

(** StockDataPoint: the five aliased fields are required, others are
    ignored. *)
Definition StockDataPoint (v : json) : bool :=
  match v with
  | JObj d =>
      field (pydantic_float L) "1. open" d &&
      field (pydantic_float L) "2. high" d &&
      field (pydantic_float L) "3. low" d &&
      field (pydantic_float L) "4. close" d &&
      field (pydantic_int L) "5. volume" d
  | _ => false
  end.

(** TimeSeriesData: a dict from date text to StockDataPoint under the
    alias 'Time Series (Daily)'. *)
Definition TimeSeriesData (data : json) : bool :=
  match data with
  | JObj d =>
      match dict_get "Time Series (Daily)" d with
      | Some (JObj days) => forallb (fun kv => StockDataPoint kv.2) days
      | _ => false
      end
  | _ => false
  end.

Definition model_validate (data : json) : result unit :=
  if TimeSeriesData data then Ok tt else Raise ValidationError.

(** ** Extract *)

(** list(RAW_DATA_PATH.glob(pattern)) *)
Definition glob (pattern : string) : M (list string) :=
  fun w =>
    (Ok (List.filter (glob_match pattern) (map fst (map_to_list (raw_data w)))), w).

Definition requests_get_json (p : params) : result json :=
  match requests_get E p with
  | ConnectionFailed => Raise RequestException
  | HttpResponse status_code body =>
      (* response.raise_for_status() *)
      if ((400 <=? status_code) && (status_code <? 600))%Z
      then Raise RequestException
      else
        (* response.json() *)
        match body with
        | Some data => Ok data
        | None => Raise RequestException
        end
  end.

(** with open(file_path, 'w') as f: json.dump(data, f, indent=4).  The
    name is a direct child of raw_data/: a name with a [/] in it lies in
    a directory of its own, which open() does not create, and is outside
    this model. *)
Definition json_dump (file_path : string) (data : json) : M unit :=
  fun w =>
    match raw_data w !! file_path with
    | Some Unreadable => (Raise PermissionError, w)
    | _ =>
        (Ok tt, {| raw_data := <[file_path := Snapshot data]> (raw_data w);
                   stock_daily_data := stock_daily_data w |})
    end.

(** 'compact' if list(RAW_DATA_PATH.glob(f'{symbol}_*.json')) else 'full' *)
Definition output_size (symbol : string) : M string :=
  let* found := glob (symbol ++ "_*.json") in
  ret (match found with
       | _ :: _ => "compact"
       | [] => "full"
       end).

Definition fetch_params (symbol output_size : string) : params :=
  {| p_function := "TIME_SERIES_DAILY";
     p_symbol := symbol;
     p_apikey := API_KEY E;
     p_outputsize := output_size |}.

(** The three except clauses print and fall through to [return None]. *)
Definition fetch_handled (e : exn) : bool :=
  match e with
  | RequestException | ValidationError | KeyError => true
  | _ => false
  end.

Definition fetch_stock_data (symbol : string) : M (option string) :=
  let* output_size := output_size symbol in
  let params := fetch_params symbol output_size in
  try_except
    (let* data := lift (requests_get_json params) in
     (* checks api rate limit *)
     let* limited := lift (py_contains "Information" data) in
     let* _ :=
       (if limited : bool
        then let* info := lift (py_getitem data "Information") in
             raise (RuntimeError info)
        else ret tt) in
     let* _ := lift (model_validate data) in
     (* save the raw data *)
     let file_path := symbol ++ "_" ++ today E ++ ".json" in
     let* _ := json_dump file_path data in
     ret (Some file_path))
    fetch_handled
    (ret None).

(** ** Transform *)

(** with open(file_path, 'r') as f: data = json.load(f) *)
Definition json_load (file_path : string) : M json :=
  fun w =>
    match raw_data w !! file_path with
    | None => (Raise FileNotFoundError, w)
    | Some Unreadable => (Raise PermissionError, w)
    | Some Garbled => (Raise ValueError, w)
    | Some (Snapshot data) => (Ok data, w)
    end.

(** A frame whose cells are still JSON values: the column labels and,
    for each index label, the cells that are present.  A cell that is
    absent reads as NaN. *)
Record frame : Type := mkFrame {
  columns : list string;
  rows : list (string * list (string * json))
}.

Definition as_dict (v : json) : result (list (string * json)) :=
  match v with
  | JObj d => Ok d
  | _ => Raise AttributeError
  end.

(** pd.DataFrame.from_dict(series, orient='index').  A dict of dicts
    gives one row per key, in the order of the keys, and the union of the
    inner keys as columns.  pandas assembles the frame column by column,
    so this is its frame when every day has a cell in the first column
    (see [regular_series]); a day without cells has no row there, and
    days with uneven cells can come in another order.  When the first
    value is no dict the values become positional columns, none of which
    has a name. *)
Definition from_dict (series : json) : result frame :=
  match series with
  | JObj [] | JArr [] => Ok (mkFrame [] [])
  | JObj (((_, JObj _) :: _) as days) =>
      rbind (traverse (fun kv => rbind (as_dict kv.2) (fun d => Ok (kv.1, d))) days)
        (fun rs => Ok (mkFrame (remove_dups (concat (map (fun r => map fst r.2) rs))) rs))
  | JObj days => Ok (mkFrame [] (map (fun kv => (kv.1, [])) days))
  | JArr _ => Raise AttributeError
  | JStr s => if String.eqb s "" then Raise ValueError else Raise AttributeError
  | JNull | JBool _ | JInt _ | JFloat _ => Raise TypeError
  end.

Definition rename_column (c : string) : string :=
  if String.eqb c "1. open" then "open"
  else if String.eqb c "2. high" then "high"
  else if String.eqb c "3. low" then "low"
  else if String.eqb c "4. close" then "close"
  else if String.eqb c "5. volume" then "volume"
  else c.

(** df.rename(columns={...}, inplace=True) *)
Definition rename (df : frame) : frame :=
  mkFrame (map rename_column (columns df))
          (map (fun r => (r.1, map (fun cv => (rename_column cv.1, cv.2)) r.2)) (rows df)).

(** df[col] as the argument of pd.to_numeric: KeyError when no column
    has the label; when two have it the selection is a frame, which
    pd.to_numeric rejects with TypeError. *)
Definition getitem_column (df : frame) (col : string)
  : result (list (option json)) :=
  match List.filter (String.eqb col) (columns df) with
  | [] => Raise KeyError
  | [_] => Ok (map (fun r => dict_get col r.2) (rows df))
  | _ :: _ :: _ => Raise TypeError
  end.

Definition price_cell (c : option json) : result float :=
  match c with
  | Some v => to_numeric L v
  | None => Ok nan
  end.

(** errors='coerce': a cell that pd.to_numeric cannot read becomes NaN,
    which .astype('Int64') turns into pd.NA. *)
Definition volume_cell (c : option json) : result (option Z) :=
  match c with
  | Some v =>
      match to_numeric L v with
      | Ok _ => to_numeric_Int64 L v
      | Raise _ => Ok None
      end
  | None => Ok None
  end.

Definition change_percentage (open close : float) : float :=
  ((close - open) / open * 100)%float.

(** The rows of the finished frame, from its columns. *)
Fixpoint assemble (symbol : string) (dates : list string)
    (opens highs lows closes : list float) (volumes : list (option Z))
  : list DataFrame.row :=
  match dates, opens, highs, lows, closes, volumes with
  | d :: dates', o :: opens', h :: highs', l :: lows', c :: closes', v :: volumes' =>
      DataFrame.mk d o h l c v symbol (now E) (change_percentage o c)
      :: assemble symbol dates' opens' highs' lows' closes' volumes'
  | _, _, _, _, _, _ => []
  end.

Definition transform_handled (e : exn) : bool :=
  match e with
  | FileNotFoundError | KeyError | TypeError => true
  | _ => false
  end.

Definition to_numeric_column (df : frame) (col : string) : result (list float) :=
  rbind (getitem_column df col) (traverse price_cell).

(** The index labels become the date column (reset_index, rename).  That
    holds when no cell of the series is itself named index or date (see
    [plain_cells]): such a cell would take the place of the labels, or
    make pd.to_datetime raise. *)
Definition transform_data (file_path : string) (symbol : string)
  : M (list DataFrame.row) :=
  try_except
    (let* data := json_load file_path in
     let* series := lift (py_getitem data "Time Series (Daily)") in
     let* df0 := lift (from_dict series) in
     (* rename columns *)
     let df := rename df0 in
     (* convert columns to appropriate numeric types *)
     let* opens := lift (to_numeric_column df "open") in
     let* highs := lift (to_numeric_column df "high") in
     let* lows := lift (to_numeric_column df "low") in
     let* closes := lift (to_numeric_column df "close") in
     let* volumes :=
       lift (rbind (getitem_column df "volume") (traverse volume_cell)) in
     (* reset index to make 'date' a column *)
     let* dates := lift (traverse (to_datetime_date L) (map fst (rows df))) in
     (* add symbol, extraction timestamp and daily change percentage *)
     ret (assemble symbol dates opens highs lows closes volumes))
    transform_handled
    (ret []).

(** ** Load *)

(** CREATE TABLE IF NOT EXISTS stock_daily_data (...) *)
Definition setup_database : M unit :=
  fun w =>
    (Ok tt,
     {| raw_data := raw_data w;
        stock_daily_data :=
          match stock_daily_data w with
          | Some t => Some t
          | None => Some []
          end |}).

(** A Python float bound to a statement: sqlite stores NaN as NULL. *)
Definition bind_float (x : float) : option float :=
  if is_nan x then None else Some x.

(** tuple(row) bound to the nine placeholders.  pd.NA has no adapter,
    so binding it raises; a volume that is present is a numpy.int64 and
    is stored as its eight bytes. *)
Definition bind_parameters (r : DataFrame.row) : result Table.record :=
  match DataFrame.volume r with
  | None => Raise ProgrammingError
  | Some v =>
      Ok (Table.mk (DataFrame.symbol r) (DataFrame.date r)
            (bind_float (DataFrame.open r)) (bind_float (DataFrame.high r))
            (bind_float (DataFrame.low r)) (bind_float (DataFrame.close r))
            (Some (int64_bytes v))
            (bind_float (DataFrame.daily_change_percentage r))
            (DataFrame.extraction_timestamp r))
  end.

(** The NOT NULL columns that can receive a NULL. *)
Definition not_null (r : Table.record) : bool :=
  match Table.open_price r, Table.high_price r, Table.low_price r,
        Table.close_price r, Table.volume r with
  | Some _, Some _, Some _, Some _, Some _ => true
  | _, _, _, _, _ => false
  end.

(** UNIQUE(symbol, date) *)
Definition same_key (r r' : Table.record) : bool :=
  String.eqb (Table.symbol r) (Table.symbol r') &&
  String.eqb (Table.date r) (Table.date r').

(** INSERT OR IGNORE of one record: a record that breaks a constraint
    is skipped. *)
Definition insert_or_ignore (t : list Table.record) (r : Table.record)
  : list Table.record :=
  if not_null r && negb (existsb (same_key r) t) then t ++ [r] else t.

Definition executemany (t : list Table.record) (records : list Table.record)
  : list Table.record :=
  fold_left insert_or_ignore records t.

(** The value is what the function prints: None for "No data to load.",
    [Some n] for cursor.rowcount.  Nothing is committed when a statement
    raises. *)
Definition load_data_to_db (df : list DataFrame.row) : M (option nat) :=
  match df with
  | [] => ret None
  | _ :: _ =>
      fun w =>
        match stock_daily_data w with
        | None => (Raise OperationalError, w)
        | Some t =>
            match traverse bind_parameters df with
            | Raise e => (Raise e, w)
            | Ok records_to_insert =>
                let t' := executemany t records_to_insert in
                (Ok (Some (length t' - length t)%nat),
                 {| raw_data := raw_data w; stock_daily_data := Some t' |})
            end
        end
  end.

(** ** Main *)

(** The body of [for symbol in SYMBOLS]. *)
Definition process_symbol (symbol : string) : M unit :=
  let* raw_file_path := fetch_stock_data symbol in
  match raw_file_path with
  | Some file_path =>
      let* transformed_df := transform_data file_path symbol in
      let* _ := load_data_to_db transformed_df in
      ret tt
  | None => ret tt
  end.

Fixpoint for_symbols (symbols : list string) : M unit :=
  match symbols with
  | [] => ret tt
  | symbol :: symbols' =>
      let* _ := process_symbol symbol in
      for_symbols symbols'
  end.

Definition run_etl_pipeline : M unit :=
  let* _ := setup_database in
  for_symbols SYMBOLS.

(** [not API_KEY] *)
Definition not_key (k : option string) : bool :=
  match k with
  | None => true
  | Some s => String.eqb s ""
  end.

(** python stock_etl.py *)
Definition main : M unit :=
  if not_key (API_KEY E) then raise ValueError else run_etl_pipeline.

(** scheduler.py: the job that schedule.run_pending() calls when it is
    due is the imported function itself. *)
Definition scheduled_job : M unit := run_etl_pipeline.

End Pipeline.

(** ** A library instance and payloads for concrete runs

    The conversions below stand for pydantic and pandas on the values the
    scenarios use: JSON integers, and text made of a sign, decimal digits
    and a decimal point.  For text of at most fifteen digits the two
    integers below are exact as floats and their quotient is rounded
    once, so the float is the one Python reads from the same text.
    Exponents, floats as JSON numbers in the volume column, and integers
    that do not fit in 63 bits are outside this instance; it is used for
    concrete runs only, none of which has such a value. *)

Definition digit_value (c : ascii) : option Z :=
  let n := Z.of_nat (nat_of_ascii c) in
  if ((48 <=? n) && (n <=? 57))%Z then Some (n - 48) else None.

(** The digits of [s] appended to the number [acc]; None when [s] has a
    character that is no digit. *)
Fixpoint digits (acc : Z) (s : list ascii) : option Z :=
  match s with
  | [] => Some acc
  | c :: s' =>
      match digit_value c with
      | Some d => digits (10 * acc + d) s'
      | None => None
      end
  end.

Definition float_of_Z (n : Z) : float :=
  if (n <? 0)%Z then (- of_uint63 (Uint63.of_Z (- n)))%float
  else of_uint63 (Uint63.of_Z n).

(** The text before the first point, and the text after it. *)
Fixpoint at_point (s : list ascii) : list ascii * list ascii :=
  match s with
  | [] => ([], [])
  | c :: s' =>
      if Ascii.eqb c "." then ([], s')
      else let (whole, fraction) := at_point s' in (c :: whole, fraction)
  end.

(** digits, then optionally a point and more digits *)
Definition unsigned_decimal (s : list ascii) : option float :=
  let (whole, fraction) := at_point s in
  match whole, digits 0 (whole ++ fraction) with
  | _ :: _, Some n =>
      Some (float_of_Z n / float_of_Z (10 ^ Z.of_nat (length fraction)))%float
  | _, _ => None
  end.

Definition decimal (s : string) : option float :=
  match list_ascii_of_string s with
  | "-"%char :: s' =>
      match unsigned_decimal s' with
      | Some x => Some (- x)%float
      | None => None
      end
  | s' => unsigned_decimal s'
  end.

Definition integer (s : string) : option Z :=
  match list_ascii_of_string s with
  | [] => None
  | s' => digits 0 s'
  end.

(** The integer that a number written in text is equal to, if any:
    digits, possibly after a sign, possibly before a point and zeros. *)
Definition unsigned_integral (s : list ascii) : option Z :=
  let (whole, fraction) := at_point s in
  match whole with
  | [] => None
  | _ :: _ => if forallb (Ascii.eqb "0") fraction then digits 0 whole else None
  end.

Definition integral (s : string) : option Z :=
  match list_ascii_of_string s with
  | "-"%char :: s' =>
      match unsigned_integral s' with
      | Some n => Some (- n)%Z
      | None => None
      end
  | s' => unsigned_integral s'
  end.

Definition days_in_month (y m : Z) : Z :=
  if (m =? 2)%Z then
    if ((y mod 4 =? 0) && (negb (y mod 100 =? 0) || (y mod 400 =? 0)))%Z
    then 29 else 28
  else if ((m =? 4) || (m =? 6) || (m =? 9) || (m =? 11))%Z then 30
  else 31.

(** A calendar date written YYYY-MM-DD, as strftime('%Y-%m-%d') writes
    it. *)
Definition iso_date (s : string) : bool :=
  match list_ascii_of_string s with
  | [y1; y2; y3; y4; "-"%char; m1; m2; "-"%char; d1; d2] =>
      match digits 0 [y1; y2; y3; y4], digits 0 [m1; m2], digits 0 [d1; d2] with
      | Some y, Some m, Some d =>
          ((1 <=? y) && (1 <=? m) && (m <=? 12) &&
           (1 <=? d) && (d <=? days_in_month y m))%Z
      | _, _, _ => false
      end
  | _ => false
  end.

Definition sample_library : Library :=
  {| pydantic_float := fun v =>
       match v with
       | JInt _ | JFloat _ => true
       | JStr s => match decimal s with Some _ => true | None => false end
       | _ => false
       end;
     pydantic_int := fun v =>
       match v with
       | JInt _ => true
       | JStr s => match integer s with Some _ => true | None => false end
       | _ => false
       end;
     to_numeric := fun v =>
       match v with
       | JInt n => Ok (float_of_Z n)
       | JFloat x => Ok x
       | JStr s => match decimal s with Some x => Ok x | None => Raise ValueError end
       | JNull => Ok nan
       | JBool b => Ok (if b then 1 else 0)%float
       | JArr _ | JObj _ => Raise TypeError
       end;
     to_numeric_Int64 := fun v =>
       match v with
       | JInt n => Ok (Some n)
       | JStr s =>
           (* a number with a fraction cannot be cast to Int64 *)
           match integral s with Some n => Ok (Some n) | None => Raise TypeError end
       | JNull => Ok None
       | JFloat x => if is_nan x then Ok None else Raise TypeError
       | _ => Raise TypeError
       end;
     to_datetime_date := fun s => if iso_date s then Ok s else Raise ValueError |}.

Definition bar (o h l c v : string) : json :=
  JObj [("1. open", JStr o); ("2. high", JStr h); ("3. low", JStr l);
        ("4. close", JStr c); ("5. volume", JStr v)].

(** A two-day series as the provider sends it. *)
Definition payload_ok : json :=
  JObj [("Meta Data", JObj [("1. Information", JStr "Daily Prices")]);
        ("Time Series (Daily)",
         JObj [("2024-03-05", bar "100.0000" "106.5000" "99.2500" "105.0000" "1200");
               ("2024-03-04", bar "150.0000" "154.0000" "149.0000" "153.0000" "900")])].

(** The provider's answer when the quota is used up. *)
Definition payload_limited : json :=
  JObj [("Information", JStr "API rate limit reached, please retry later")].

(** A complete series that also carries a top-level message. *)
Definition payload_both : json :=
  match payload_ok with
  | JObj d => JObj (("Information", JStr "premium plans are available") :: d)
  | other => other
  end.

(** A snapshot in which one day has no usable volume. *)
Definition payload_volume : json :=
  JObj [("Time Series (Daily)",
         JObj [("2024-03-05", bar "100.0000" "106.5000" "99.2500" "105.0000" "n/a")])].

(** A snapshot in which one day opens at zero. *)
Definition payload_zero : json :=
  JObj [("Time Series (Daily)",
         JObj [("2024-03-05", bar "0.0000" "106.5000" "0.0000" "105.0000" "1200")])].

Definition sample_env (key : option string) (server : params -> response) : Env :=
  {| API_KEY := key;
     requests_get := server;
     today := "2024-03-06";
     now := "2024-03-06 00:30:00" |}.

Definition server_ok (p : params) : response :=
  HttpResponse 200 (Some payload_ok).

(** The first symbol is throttled. *)
Definition server_limited (p : params) : response :=
  if String.eqb (p_symbol p) "AAPL" then HttpResponse 200 (Some payload_limited)
  else HttpResponse 200 (Some payload_ok).

(** The connection fails for the second symbol. *)
Definition server_down_for (symbol : string) (p : params) : response :=
  if String.eqb (p_symbol p) symbol then ConnectionFailed
  else HttpResponse 200 (Some payload_ok).

(** One snapshot on disk, an empty table. *)
Definition with_snapshot (file_path : string) (data : json) : World :=
  {| raw_data := <[file_path := Snapshot data]> ∅; stock_daily_data := Some [] |}.

(** The rows of a call, none when it raised. *)
Definition rows_of (r : result (list DataFrame.row) * World) : list DataFrame.row :=
  match r.1 with
  | Ok out => out
  | Raise _ => []
  end.

(** Nothing on disk, no table. *)
Definition fresh : World := {| raw_data := ∅; stock_daily_data := None |}.

Definition stored_keys (w : World) : list (string * string) :=
  match stock_daily_data w with
  | Some t => map (fun r => (Table.symbol r, Table.date r)) t
  | None => []
  end.

(** The records of the store; none before the table exists. *)
Definition table (w : World) : list Table.record :=
  match stock_daily_data w with
  | Some t => t
  | None => []
  end.

Definition key (r : Table.record) : string * string :=
  (Table.symbol r, Table.date r).

(** What a caller can ask of the module, to state what holds after any
    sequence of calls. *)
Inductive operation : Type :=
| SetupDatabase
| FetchStockData (symbol : string)
| TransformData (file_path symbol : string)
| LoadDataToDb (df : list DataFrame.row)
| RunEtlPipeline
| Main.

(** The world after one call, whether it returned or raised. *)
Definition perform (L : Library) (w : World) (step : Env * operation) : World :=
  match step.2 with
  | SetupDatabase => (setup_database w).2
  | FetchStockData symbol => (fetch_stock_data L step.1 symbol w).2
  | TransformData file_path symbol => (transform_data L step.1 file_path symbol w).2
  | LoadDataToDb df => (load_data_to_db df w).2
  | RunEtlPipeline => (run_etl_pipeline L step.1 w).2
  | Main => (main L step.1 w).2
  end.

Definition perform_all (L : Library) (steps : list (Env * operation)) (w : World)
  : World :=
  fold_left (perform L) steps w.

(** ** The order in which the store may change *)

(** [w'] has the records of [w], in place, and possibly more; keys stay
    distinct if they were. *)
Definition grows (w w' : World) : Prop :=
  (exists added, table w' = (table w ++ added)%list) /\
  (List.NoDup (map key (table w)) -> List.NoDup (map key (table w'))).

Definition monotone {A} (m : M A) : Prop := forall w, grows w (m w).2.

(** A statement that does not write to the store. *)
Definition reads_only {A} (m : M A) : Prop := forall w, table (m w).2 = table w.

(** ** Names and relations for statements about whole runs *)

(** The name under which a fetch saves the snapshot of a symbol. *)
Definition snapshot_name (E : Env) (symbol : string) : string :=
  symbol ++ "_" ++ today E ++ ".json".

Definition row_key (r : DataFrame.row) : string * string :=
  (DataFrame.symbol r, DataFrame.date r).

(** A row none of whose prices is NaN. *)
Definition storable (r : DataFrame.row) : bool :=
  negb (is_nan (DataFrame.open r)) && negb (is_nan (DataFrame.high r)) &&
  negb (is_nan (DataFrame.low r)) && negb (is_nan (DataFrame.close r)).

(** A statement whose every run relates the world before to the world
    after by [R]. *)
Definition respects {A} (R : World -> World -> Prop) (m : M A) : Prop :=
  forall w, R w (m w).2.

(** No name of raw_data/ is lost. *)
Definition no_file_lost (w w' : World) : Prop :=
  forall name, is_Some (raw_data w !! name) -> is_Some (raw_data w' !! name).

(** No name is lost, and the names outside [names] keep their content. *)
Definition files_kept (names : list string) (w w' : World) : Prop :=
  no_file_lost w w' /\
  (forall name, ~ In name names -> raw_data w' !! name = raw_data w !! name).

(** The records of [w] are still there, and each record that came after
    them satisfies [P]. *)
Definition adds_only (P : Table.record -> Prop) (w w' : World) : Prop :=
  exists added, table w' = (table w ++ added)%list /\ Forall P added.

(** ** The payloads and names on which the model is the code *)

(** No day of the series has a cell named index or date: the date column
    of the frame is then made of the keys of the series. *)
Definition plain_cells (days : list (string * json)) : Prop :=
  forall d cells, In (d, JObj cells) days ->
    dict_get "index" cells = None /\ dict_get "date" cells = None.

(** Every day of the series is a dict with the same, at least one, cell
    names, as the provider sends them: pandas then has one row per day,
    in the order of the keys. *)
Definition regular_series (days : list (string * json)) : Prop :=
  plain_cells days /\
  exists names, names <> [] /\
    forall kv, In kv days -> exists cells, kv.2 = JObj cells /\ map fst cells = names.


(** * Properties *)

Open Scope list_scope.

(** ** The store: INSERT OR IGNORE under UNIQUE(symbol, date) *)

Lemma same_key_spec (r r' : Table.record) :
  same_key r r' = true <-> key r = key r'.
Proof.
  unfold same_key, key. rewrite andb_true_iff, !String.eqb_eq.
  split; [intros [-> ->]; reflexivity | intros [= -> ->]; auto].
Qed.

Lemma conflict_spec (r : Table.record) (t : list Table.record) :
  existsb (same_key r) t = true <-> In (key r) (map key t).
Proof.
  rewrite existsb_exists, in_map_iff. split.
  - intros (r' & Hin & Hk). exists r'. apply same_key_spec in Hk. auto.
  - intros (r' & Hk & Hin). exists r'. split; [assumption|].
    apply same_key_spec. auto.
Qed.

Lemma insert_or_ignore_cases (t : list Table.record) (r : Table.record) :
  (insert_or_ignore t r = t ++ [r] /\ not_null r = true /\ ~ In (key r) (map key t))
  \/ (insert_or_ignore t r = t /\ (not_null r = false \/ In (key r) (map key t))).
Proof.
  unfold insert_or_ignore.
  destruct (not_null r); simpl; [|right; auto].
  destruct (existsb (same_key r) t) eqn:Hc; simpl.
  - right. split; [reflexivity|]. right. apply conflict_spec. assumption.
  - left. repeat split. intros Hin. apply conflict_spec in Hin. congruence.
Qed.

Lemma executemany_app (t : list Table.record) (rs : list Table.record) :
  exists added, executemany t rs = t ++ added.
Proof.
  revert t. induction rs as [|r rs IH]; intros t; simpl.
  - exists []. now rewrite app_nil_r.
  - destruct (IH (insert_or_ignore t r)) as [added Hadd].
    unfold executemany in *. rewrite Hadd.
    destruct (insert_or_ignore_cases t r) as [(-> & _) | (-> & _)].
    + exists (r :: added). now rewrite <- app_assoc.
    + exists added. reflexivity.
Qed.

Lemma executemany_keeps_keys (t rs : list Table.record) (k : string * string) :
  In k (map key t) -> In k (map key (executemany t rs)).
Proof.
  destruct (executemany_app t rs) as [added ->].
  rewrite map_app, in_app_iff. auto.
Qed.

Lemma insert_or_ignore_NoDup (t : list Table.record) (r : Table.record) :
  List.NoDup (map key t) -> List.NoDup (map key (insert_or_ignore t r)).
Proof.
  intros Hnd.
  destruct (insert_or_ignore_cases t r) as [(-> & _ & Hfresh) | (-> & _)];
    [|assumption].
  rewrite map_app. simpl.
  apply List.NoDup_app; [assumption | repeat constructor; simpl; tauto |].
  intros k Hk [<- | []]. contradiction.
Qed.

Lemma executemany_NoDup (t rs : list Table.record) :
  List.NoDup (map key t) -> List.NoDup (map key (executemany t rs)).
Proof.
  revert t. induction rs as [|r rs IH]; intros t Hnd; simpl; [assumption|].
  apply IH, insert_or_ignore_NoDup, Hnd.
Qed.

(** After a statement has run over [rs], each of its records is either
    refused by a NOT NULL column or present by key. *)
Lemma executemany_settles (t rs : list Table.record) (r : Table.record) :
  In r rs -> not_null r = false \/ In (key r) (map key (executemany t rs)).
Proof.
  revert t. induction rs as [|r0 rs IH]; intros t; simpl; [tauto|].
  intros [-> | Hin]; [|apply IH, Hin].
  destruct (insert_or_ignore_cases t r) as [(Heq & _) | (_ & [Hn | Hk])].
  - right. apply executemany_keeps_keys. rewrite Heq, map_app, in_app_iff.
    simpl. auto.
  - left. assumption.
  - right. apply executemany_keeps_keys.
    destruct (insert_or_ignore_cases t r) as [(-> & _) | (-> & _)];
      [rewrite map_app, in_app_iff|]; auto.
Qed.

Lemma executemany_ignored (t rs : list Table.record) :
  (forall r, In r rs -> not_null r = false \/ In (key r) (map key t)) ->
  executemany t rs = t.
Proof.
  induction rs as [|r rs IH]; intros Hall; simpl; [reflexivity|].
  assert (Hr : insert_or_ignore t r = t).
  { destruct (insert_or_ignore_cases t r) as [(_ & Hn & Hk) | (-> & _)];
      [|reflexivity].
    destruct (Hall r (or_introl eq_refl)) as [Hn' | Hk']; [congruence | contradiction]. }
  rewrite Hr. apply IH. intros r' Hin. apply Hall. now right.
Qed.

Lemma executemany_twice (t rs : list Table.record) :
  executemany (executemany t rs) rs = executemany t rs.
Proof.
  apply executemany_ignored. intros r Hin. apply executemany_settles, Hin.
Qed.

Lemma load_data_to_db_rows (r : DataFrame.row) (df : list DataFrame.row) (w : World) :
  load_data_to_db (r :: df) w =
  match stock_daily_data w with
  | None => (Raise OperationalError, w)
  | Some t =>
      match traverse bind_parameters (r :: df) with
      | Raise e => (Raise e, w)
      | Ok records =>
          (Ok (Some (length (executemany t records) - length t)%nat),
           {| raw_data := raw_data w;
              stock_daily_data := Some (executemany t records) |})
      end
  end.
Proof. reflexivity. Qed.

(** C3.  Loading a row-set a second time changes nothing: the store after
    the second load is the store after the first, and where the first
    load reported a count of new records, the second reports zero.  (A
    load that raises, or that has no data, does the same again.) *)
Theorem load_twice_is_load_once (df : list DataFrame.row) (w : World) :
  let once := load_data_to_db df w in
  let twice := load_data_to_db df once.2 in
  twice.2 = once.2 /\
  twice.1 = match once.1 with
            | Ok (Some _) => Ok (Some 0%nat)
            | other => other
            end.
Proof.
  destruct df as [|r df]; [split; reflexivity|].
  cbv zeta. rewrite !load_data_to_db_rows.
  destruct (stock_daily_data w) as [t|] eqn:Ht.
  - destruct (traverse bind_parameters (r :: df)) as [records|e] eqn:Hb.
    + cbn [fst snd stock_daily_data].
      rewrite executemany_twice, Nat.sub_diag. split; reflexivity.
    + cbn [fst snd]. rewrite Ht. split; reflexivity.
  - cbn [fst snd]. rewrite Ht. split; reflexivity.
Qed.

(** ** The store only grows *)

Lemma grows_refl (w : World) : grows w w.
Proof. split; [exists []; now rewrite app_nil_r | auto]. Qed.

Lemma grows_trans (w1 w2 w3 : World) : grows w1 w2 -> grows w2 w3 -> grows w1 w3.
Proof.
  intros [[a1 H1] N1] [[a2 H2] N2]. split; [|auto].
  exists (a1 ++ a2). now rewrite H2, H1, app_assoc.
Qed.

Lemma grows_same_store (w w' : World) :
  stock_daily_data w' = stock_daily_data w -> grows w w'.
Proof.
  intros Heq. unfold grows, table. rewrite Heq.
  split; [exists []; now rewrite app_nil_r | auto].
Qed.

Lemma monotone_ret {A} (a : A) : monotone (ret a).
Proof. intros w. apply grows_refl. Qed.

Lemma monotone_raise {A} (e : exn) : monotone (@raise A e).
Proof. intros w. apply grows_refl. Qed.

Lemma monotone_lift {A} (r : result A) : monotone (lift r).
Proof. intros w. apply grows_refl. Qed.

Lemma monotone_bind {A B} (m : M A) (k : A -> M B) :
  monotone m -> (forall a, monotone (k a)) -> monotone (bind m k).
Proof.
  intros Hm Hk w. unfold bind. specialize (Hm w).
  destruct (m w) as [[a|e] w']; simpl in *; [|assumption].
  eapply grows_trans; [exact Hm | apply Hk].
Qed.

Lemma monotone_try_except {A} (body : M A) (classes : exn -> bool) (handler : M A) :
  monotone body -> monotone handler -> monotone (try_except body classes handler).
Proof.
  intros Hb Hh w. unfold try_except. specialize (Hb w).
  destruct (body w) as [[a|e] w']; simpl in *; [assumption|].
  destruct (classes e); [|assumption].
  eapply grows_trans; [exact Hb | apply Hh].
Qed.

Lemma monotone_glob (pattern : string) : monotone (glob pattern).
Proof. intros w. apply grows_refl. Qed.

Lemma monotone_json_dump (file_path : string) (data : json) :
  monotone (json_dump file_path data).
Proof.
  intros w. unfold json_dump.
  destruct (raw_data w !! file_path) as [[]|]; simpl;
    solve [apply grows_refl | apply grows_same_store; reflexivity].
Qed.

Lemma monotone_json_load (file_path : string) : monotone (json_load file_path).
Proof.
  intros w. unfold json_load.
  destruct (raw_data w !! file_path) as [[]|]; apply grows_refl.
Qed.

Lemma monotone_setup_database : monotone setup_database.
Proof.
  intros w. unfold setup_database, grows, table. simpl.
  destruct (stock_daily_data w);
    (split; [exists []; now rewrite app_nil_r | auto]).
Qed.

Lemma monotone_load_data_to_db (df : list DataFrame.row) :
  monotone (load_data_to_db df).
Proof.
  intros w. destruct df as [|r df]; [apply grows_refl|].
  unfold load_data_to_db.
  destruct (stock_daily_data w) as [t|] eqn:Ht; [|apply grows_refl].
  destruct (traverse bind_parameters (r :: df)) as [records|e];
    [|apply grows_refl].
  unfold grows, table. simpl. rewrite Ht. split.
  - apply executemany_app.
  - apply executemany_NoDup.
Qed.

Section Monotone.

Variable L : Library.
Variable E : Env.

Lemma monotone_fetch_stock_data (symbol : string) :
  monotone (fetch_stock_data L E symbol).
Proof.
  unfold fetch_stock_data, output_size.
  repeat first
    [ apply monotone_bind; [|intros ?]
    | apply monotone_try_except
    | apply monotone_glob
    | apply monotone_json_dump
    | apply monotone_ret
    | apply monotone_raise
    | apply monotone_lift
    | match goal with |- monotone (if ?b then _ else _) => destruct b end ].
Qed.

Lemma monotone_transform_data (file_path symbol : string) :
  monotone (transform_data L E file_path symbol).
Proof.
  unfold transform_data.
  repeat first
    [ apply monotone_bind; [|intros ?]
    | apply monotone_try_except
    | apply monotone_json_load
    | apply monotone_ret
    | apply monotone_lift ].
Qed.

Lemma monotone_process_symbol (symbol : string) :
  monotone (process_symbol L E symbol).
Proof.
  unfold process_symbol.
  apply monotone_bind; [apply monotone_fetch_stock_data|].
  intros [file_path|]; [|apply monotone_ret].
  apply monotone_bind; [apply monotone_transform_data|]. intros df.
  apply monotone_bind; [apply monotone_load_data_to_db|]. intros _.
  apply monotone_ret.
Qed.

Lemma monotone_for_symbols (symbols : list string) :
  monotone (for_symbols L E symbols).
Proof.
  induction symbols as [|symbol symbols IH]; simpl; [apply monotone_ret|].
  apply monotone_bind; [apply monotone_process_symbol | intros _; exact IH].
Qed.

Lemma monotone_run_etl_pipeline : monotone (run_etl_pipeline L E).
Proof.
  unfold run_etl_pipeline.
  apply monotone_bind; [apply monotone_setup_database|].
  intros _. apply monotone_for_symbols.
Qed.

Lemma monotone_main : monotone (main L E).
Proof.
  unfold main. destruct (not_key (API_KEY E));
    [apply monotone_raise | apply monotone_run_etl_pipeline].
Qed.

End Monotone.

Lemma perform_grows (L : Library) (w : World) (step : Env * operation) :
  grows w (perform L w step).
Proof.
  destruct step as [E op]. unfold perform. simpl. destruct op.
  - apply monotone_setup_database.
  - apply monotone_fetch_stock_data.
  - apply monotone_transform_data.
  - apply monotone_load_data_to_db.
  - apply monotone_run_etl_pipeline.
  - apply monotone_main.
Qed.

Lemma perform_all_grows (L : Library) (steps : list (Env * operation)) (w : World) :
  grows w (perform_all L steps w).
Proof.
  revert w. induction steps as [|step steps IH]; intros w; simpl.
  - apply grows_refl.
  - eapply grows_trans; [apply perform_grows | apply IH].
Qed.

(** *** The loader is the only writer *)

Lemma reads_only_ret {A} (a : A) : reads_only (ret a).
Proof. intros w. reflexivity. Qed.

Lemma reads_only_raise {A} (e : exn) : reads_only (@raise A e).
Proof. intros w. reflexivity. Qed.

Lemma reads_only_lift {A} (r : result A) : reads_only (lift r).
Proof. intros w. reflexivity. Qed.

Lemma reads_only_bind {A B} (m : M A) (k : A -> M B) :
  reads_only m -> (forall a, reads_only (k a)) -> reads_only (bind m k).
Proof.
  intros Hm Hk w. unfold bind. specialize (Hm w).
  destruct (m w) as [[a|e] w']; simpl in *; [|assumption].
  rewrite Hk. exact Hm.
Qed.

Lemma reads_only_try_except {A} (body : M A) (classes : exn -> bool) (handler : M A) :
  reads_only body -> reads_only handler ->
  reads_only (try_except body classes handler).
Proof.
  intros Hb Hh w. unfold try_except. specialize (Hb w).
  destruct (body w) as [[a|e] w']; simpl in *; [assumption|].
  destruct (classes e); [|assumption].
  rewrite Hh. exact Hb.
Qed.

Lemma reads_only_glob (pattern : string) : reads_only (glob pattern).
Proof. intros w. reflexivity. Qed.

Lemma reads_only_json_dump (file_path : string) (data : json) :
  reads_only (json_dump file_path data).
Proof.
  intros w. unfold json_dump.
  destruct (raw_data w !! file_path) as [[]|]; reflexivity.
Qed.

Lemma reads_only_json_load (file_path : string) : reads_only (json_load file_path).
Proof.
  intros w. unfold json_load.
  destruct (raw_data w !! file_path) as [[]|]; reflexivity.
Qed.

(** Creating the table stores no record. *)
Lemma reads_only_setup_database : reads_only setup_database.
Proof.
  intros w. unfold setup_database, table. simpl.
  destruct (stock_daily_data w); reflexivity.
Qed.

Lemma reads_only_fetch_stock_data (L : Library) (E : Env) (symbol : string) :
  reads_only (fetch_stock_data L E symbol).
Proof.
  unfold fetch_stock_data, output_size.
  repeat first
    [ apply reads_only_bind; [|intros ?]
    | apply reads_only_try_except
    | apply reads_only_glob
    | apply reads_only_json_dump
    | apply reads_only_ret
    | apply reads_only_raise
    | apply reads_only_lift
    | match goal with |- reads_only (if ?b then _ else _) => destruct b end ].
Qed.

Lemma reads_only_transform_data (L : Library) (E : Env) (file_path symbol : string) :
  reads_only (transform_data L E file_path symbol).
Proof.
  unfold transform_data.
  repeat first
    [ apply reads_only_bind; [|intros ?]
    | apply reads_only_try_except
    | apply reads_only_json_load
    | apply reads_only_ret
    | apply reads_only_lift ].
Qed.

(** C4.  Start with any files and no table, and make any calls: whatever
    point of the sequence is taken as "before", the records stored then
    are still there afterwards, unchanged and in the same place, and at
    the end no two records have the same (symbol, date).  Of the calls,
    only the load (and the pipeline, which calls it) adds records:
    setting up the table, fetching and transforming leave the records as
    they are. *)
Theorem store_unique_and_append_only (L : Library) (files : gmap string file)
    (before after : list (Env * operation)) :
  let w0 := {| raw_data := files; stock_daily_data := None |} in
  let w1 := perform_all L before w0 in
  let w2 := perform_all L after w1 in
  List.NoDup (map key (table w2)) /\
  (exists added, table w2 = table w1 ++ added) /\
  (forall E op,
     match op with
     | LoadDataToDb _ | RunEtlPipeline | Main => True
     | SetupDatabase | FetchStockData _ | TransformData _ _ =>
         table (perform L w1 (E, op)) = table w1
     end).
Proof.
  intros w0 w1 w2. split; [|split].
  - assert (H : grows w0 w2).
    { eapply grows_trans; apply perform_all_grows. }
    apply H. constructor.
  - apply (perform_all_grows L after w1).
  - intros E [| symbol | file_path symbol | df | |]; unfold perform; simpl; auto.
    + apply reads_only_setup_database.
    + apply reads_only_fetch_stock_data.
    + apply reads_only_transform_data.
Qed.

(** ** Extract: what is caught at the symbol boundary and what is not *)

Section Extract.

Variable L : Library.
Variable E : Env.

Lemma output_size_returns (symbol : string) (w : World) :
  exists mode, output_size symbol w = (Ok mode, w).
Proof. unfold output_size, bind, glob, ret. eexists. reflexivity. Qed.

(** A transport failure ends in the [return None] of the function. *)
Lemma fetch_transport_failure (symbol : string) (w : World) :
  (forall p, p_symbol p = symbol -> requests_get_json E p = Raise RequestException) ->
  fetch_stock_data L E symbol w = (Ok None, w).
Proof.
  intros Hdown. unfold fetch_stock_data, bind.
  destruct (output_size_returns symbol w) as [mode ->].
  unfold try_except, bind, lift. rewrite Hdown by reflexivity. reflexivity.
Qed.

(** A payload with the key "Information" raises RuntimeError out of
    the function: it is raised inside the try block, and no except
    clause names it. *)
Lemma fetch_information (symbol : string) (w : World)
    (d : list (string * json)) (info : json) :
  (forall p, p_symbol p = symbol -> requests_get_json E p = Ok (JObj d)) ->
  dict_get "Information" d = Some info ->
  fetch_stock_data L E symbol w = (Raise (RuntimeError info), w).
Proof.
  intros Hget Hinfo. unfold fetch_stock_data, bind.
  destruct (output_size_returns symbol w) as [mode ->].
  unfold try_except, bind, lift. rewrite Hget by reflexivity.
  unfold py_contains, py_getitem. rewrite Hinfo. reflexivity.
Qed.

Lemma process_symbol_skips (symbol : string) (w : World) :
  fetch_stock_data L E symbol w = (Ok None, w) ->
  process_symbol L E symbol w = (Ok tt, w).
Proof. intros Hf. unfold process_symbol, bind. rewrite Hf. reflexivity. Qed.

Lemma process_symbol_raises (symbol : string) (w : World) (e : exn) :
  fetch_stock_data L E symbol w = (Raise e, w) ->
  process_symbol L E symbol w = (Raise e, w).
Proof. intros Hf. unfold process_symbol, bind. rewrite Hf. reflexivity. Qed.

Lemma for_symbols_app (before after : list string) (w : World) :
  for_symbols L E (before ++ after) w =
  match for_symbols L E before w with
  | (Ok _, w') => for_symbols L E after w'
  | (Raise e, w') => (Raise e, w')
  end.
Proof.
  revert w. induction before as [|symbol before IH]; intros w; simpl.
  - reflexivity.
  - unfold bind. destruct (process_symbol L E symbol w) as [[[]|e] w'].
    + apply IH.
    + reflexivity.
Qed.

(** A symbol whose fetch fails in transport can be struck from the
    list: the run is that of the other symbols. *)
Lemma for_symbols_skips (before after : list string) (symbol : string) (w : World) :
  (forall p, p_symbol p = symbol -> requests_get_json E p = Raise RequestException) ->
  for_symbols L E (before ++ symbol :: after) w = for_symbols L E (before ++ after) w.
Proof.
  intros Hdown. rewrite !for_symbols_app.
  destruct (for_symbols L E before w) as [[[]|e] w']; [|reflexivity].
  simpl. unfold bind at 1.
  rewrite process_symbol_skips by (apply fetch_transport_failure, Hdown).
  reflexivity.
Qed.

End Extract.

(** C1 (the code departs from the claim).  A payload that carries the
    top-level key "Information" is told apart from a validation failure:
    it raises RuntimeError, not ValidationError.  But no except clause of
    the extractor handles RuntimeError, so it is not turned into the
    no-artifact signal: the loop over the symbols stops there with the
    exception, nothing is stored, and the symbols that follow are never
    processed. *)
Theorem rate_limit_aborts_run (L : Library) (E : Env) (symbol : string)
    (rest : list string) (w : World) (d : list (string * json)) (info : json) :
  (forall p, p_symbol p = symbol -> requests_get_json E p = Ok (JObj d)) ->
  dict_get "Information" d = Some info ->
  fetch_handled (RuntimeError info) = false /\
  fetch_stock_data L E symbol w = (Raise (RuntimeError info), w) /\
  for_symbols L E (symbol :: rest) w = (Raise (RuntimeError info), w).
Proof.
  intros Hget Hinfo. split; [reflexivity|].
  pose proof (fetch_information L E symbol w d info Hget Hinfo) as Hf.
  split; [exact Hf|].
  simpl. unfold bind. rewrite (process_symbol_raises L E symbol w _ Hf).
  reflexivity.
Qed.

Lemma rate_limit_aborts_run_witness :
  let E := sample_env (Some "demo") server_limited in
  let info := JStr "API rate limit reached, please retry later" in
  (forall p, p_symbol p = "AAPL" ->
     requests_get_json E p = Ok (JObj [("Information", info)])) /\
  dict_get "Information" [("Information", info)] = Some info /\
  fetch_handled (RuntimeError info) = false /\
  fetch_stock_data sample_library E "AAPL" fresh = (Raise (RuntimeError info), fresh) /\
  for_symbols sample_library E SYMBOLS fresh = (Raise (RuntimeError info), fresh).
Proof.
  intros E info.
  assert (Hget : forall p, p_symbol p = "AAPL" ->
            requests_get_json E p = Ok (JObj [("Information", info)])).
  { intros p Hp. unfold requests_get_json, E, sample_env, server_limited. simpl.
    rewrite Hp. reflexivity. }
  split; [exact Hget|]. split; [reflexivity|].
  exact (rate_limit_aborts_run sample_library E "AAPL" ["GOOG"; "MSFT"] fresh
           [("Information", info)] info Hget eq_refl).
Defined.

(** C2.  A symbol whose request fails in transport (no connection, an
    error status, a body that is no JSON) is caught at the symbol
    boundary: its fetch returns the no-artifact signal and changes
    nothing.  The run over a list that contains it is the run over the
    list without it; with three symbols of which the second fails so, the
    run is the run of the first and the third: same outcome, same
    snapshots, same stored records. *)
Theorem transport_failure_is_isolated (L : Library) (E : Env)
    (first second third : string) (w : World) :
  (forall p, p_symbol p = second -> requests_get_json E p = Raise RequestException) ->
  (forall w', fetch_stock_data L E second w' = (Ok None, w')) /\
  (forall before after,
     for_symbols L E (before ++ second :: after) w =
     for_symbols L E (before ++ after) w) /\
  for_symbols L E [first; second; third] w = for_symbols L E [first; third] w.
Proof.
  intros Hdown. split; [|split].
  - intros w'. apply fetch_transport_failure, Hdown.
  - intros before after. apply for_symbols_skips, Hdown.
  - apply (for_symbols_skips L E [first] [third] second w Hdown).
Qed.

Lemma transport_failure_is_isolated_witness :
  let E := sample_env (Some "demo") (server_down_for "GOOG") in
  (forall p, p_symbol p = "GOOG" -> requests_get_json E p = Raise RequestException) /\
  ((forall w', fetch_stock_data sample_library E "GOOG" w' = (Ok None, w')) /\
   (forall before after,
      for_symbols sample_library E (before ++ "GOOG" :: after) fresh =
      for_symbols sample_library E (before ++ after) fresh) /\
   for_symbols sample_library E ["AAPL"; "GOOG"; "MSFT"] fresh =
   for_symbols sample_library E ["AAPL"; "MSFT"] fresh) /\
  (run_etl_pipeline sample_library E fresh).1 = Ok tt /\
  stored_keys (run_etl_pipeline sample_library E fresh).2 =
    [("AAPL", "2024-03-05"); ("AAPL", "2024-03-04");
     ("MSFT", "2024-03-05"); ("MSFT", "2024-03-04")].
Proof.
  intros E.
  assert (Hdown : forall p, p_symbol p = "GOOG" ->
            requests_get_json E p = Raise RequestException).
  { intros p Hp. unfold requests_get_json, E, sample_env, server_down_for. simpl.
    rewrite Hp. reflexivity. }
  split; [exact Hdown|]. split.
  - exact (transport_failure_is_isolated sample_library E "AAPL" "GOOG" "MSFT"
             fresh Hdown).
  - split; vm_compute; reflexivity.
Defined.

(** C10.  The check for "Information" comes before validation and looks
    at the key only.  Whatever else the payload holds, a complete and
    valid series included, the extraction ends in the rate-limit
    exception: no snapshot is written and nothing of the payload is
    stored, the world is left as it was. *)
Theorem information_key_wins (L : Library) (E : Env) (symbol : string)
    (w : World) (d : list (string * json)) (info : json) :
  (forall p, p_symbol p = symbol -> requests_get_json E p = Ok (JObj d)) ->
  dict_get "Information" d = Some info ->
  fetch_stock_data L E symbol w = (Raise (RuntimeError info), w) /\
  process_symbol L E symbol w = (Raise (RuntimeError info), w).
Proof.
  intros Hget Hinfo.
  pose proof (fetch_information L E symbol w d info Hget Hinfo) as Hf.
  split; [exact Hf | apply process_symbol_raises, Hf].
Qed.

Lemma information_key_wins_witness :
  let E := sample_env (Some "demo") (fun _ => HttpResponse 200 (Some payload_both)) in
  let info := JStr "premium plans are available" in
  let w := {| raw_data := ∅; stock_daily_data := Some [] |} in
  TimeSeriesData sample_library payload_both = true /\
  (exists d,
     (forall p, p_symbol p = "AAPL" -> requests_get_json E p = Ok (JObj d)) /\
     dict_get "Information" d = Some info) /\
  fetch_stock_data sample_library E "AAPL" w = (Raise (RuntimeError info), w) /\
  process_symbol sample_library E "AAPL" w = (Raise (RuntimeError info), w).
Proof.
  intros E info w. split; [reflexivity|].
  pose (d := match payload_both with JObj d => d | _ => [] end).
  assert (Hget : forall p, p_symbol p = "AAPL" -> requests_get_json E p = Ok (JObj d)).
  { intros p _. reflexivity. }
  split; [exists d; split; [exact Hget | reflexivity]|].
  exact (information_key_wins sample_library E "AAPL" w d info Hget eq_refl).
Defined.

(** C7 (the code departs from the claim).  The credential is tested in
    one place, the __main__ block of the script: run as a script without
    a key, the program raises before anything is done.  The scheduler
    calls run_etl_pipeline itself, which has no such test: without a key
    the job sets up the table and fetches, transforms and loads every
    symbol the server answers for. *)
Theorem scheduled_job_runs_without_key :
  let E := sample_env None server_ok in
  not_key (API_KEY E) = true /\
  main sample_library E fresh = (Raise ValueError, fresh) /\
  (scheduled_job sample_library E fresh).1 = Ok tt /\
  stored_keys (scheduled_job sample_library E fresh).2 =
    [("AAPL", "2024-03-05"); ("AAPL", "2024-03-04");
     ("GOOG", "2024-03-05"); ("GOOG", "2024-03-04");
     ("MSFT", "2024-03-05"); ("MSFT", "2024-03-04")].
Proof. repeat split; vm_compute; reflexivity. Qed.

(** The guard of the script, for every configuration. *)
Lemma main_requires_key (L : Library) (E : Env) (w : World) :
  not_key (API_KEY E) = true -> main L E w = (Raise ValueError, w).
Proof. intros Hk. unfold main. rewrite Hk. reflexivity. Qed.

(** ** Transform: what its except clause catches *)

Section TransformErrors.

Variable L : Library.
Variable E : Env.

Lemma transform_missing_file (file_path symbol : string) (w : World) :
  raw_data w !! file_path = None ->
  transform_data L E file_path symbol w = (Ok [], w).
Proof.
  intros Hnone. unfold transform_data, try_except, bind, json_load.
  rewrite Hnone. reflexivity.
Qed.

Lemma transform_missing_key (file_path symbol : string) (w : World)
    (d : list (string * json)) :
  raw_data w !! file_path = Some (Snapshot (JObj d)) ->
  dict_get "Time Series (Daily)" d = None ->
  transform_data L E file_path symbol w = (Ok [], w).
Proof.
  intros Hfile Hkey. unfold transform_data, try_except, bind, json_load, lift.
  rewrite Hfile. unfold py_getitem. rewrite Hkey. reflexivity.
Qed.

Lemma transform_garbled (file_path symbol : string) (w : World) :
  raw_data w !! file_path = Some Garbled ->
  transform_data L E file_path symbol w = (Raise ValueError, w).
Proof.
  intros Hfile. unfold transform_data, try_except, bind, json_load.
  rewrite Hfile. reflexivity.
Qed.

Lemma transform_unreadable (file_path symbol : string) (w : World) :
  raw_data w !! file_path = Some Unreadable ->
  transform_data L E file_path symbol w = (Raise PermissionError, w).
Proof.
  intros Hfile. unfold transform_data, try_except, bind, json_load.
  rewrite Hfile. reflexivity.
Qed.

End TransformErrors.

(** C8 (the code departs from the claim).  The except clause of the
    transform names FileNotFoundError, KeyError and TypeError.  A missing
    file and an absent time-series key end in the empty row-set.  A
    snapshot that no longer decodes as JSON raises a ValueError, a file
    that cannot be opened a PermissionError: neither is named, and both
    reach the caller. *)
Theorem transform_propagates (L : Library) (E : Env) (file_path symbol : string)
    (w : World) (f : file) :
  raw_data w !! file_path = Some f ->
  (f = Garbled -> transform_data L E file_path symbol w = (Raise ValueError, w)) /\
  (f = Unreadable ->
   transform_data L E file_path symbol w = (Raise PermissionError, w)) /\
  transform_handled ValueError = false /\
  transform_handled PermissionError = false.
Proof.
  intros Hfile. repeat split.
  - intros ->. apply transform_garbled, Hfile.
  - intros ->. apply transform_unreadable, Hfile.
Qed.

Lemma transform_propagates_witness :
  let E := sample_env (Some "demo") server_ok in
  let w := {| raw_data := <["AAPL_2024-03-06.json" := Garbled]> ∅;
              stock_daily_data := Some [] |} in
  raw_data w !! "AAPL_2024-03-06.json" = Some Garbled /\
  transform_data sample_library E "AAPL_2024-03-06.json" "AAPL" w =
    (Raise ValueError, w).
Proof.
  intros E w.
  assert (Hfile : raw_data w !! "AAPL_2024-03-06.json" = Some Garbled)
    by reflexivity.
  split; [exact Hfile|].
  exact (proj1 (transform_propagates sample_library E "AAPL_2024-03-06.json" "AAPL"
                  w Garbled Hfile) eq_refl).
Defined.

(** ** Transform: the rows of a successful call *)

Lemma lookup_map {A B} (f : A -> B) (l : list A) (i : nat) :
  map f l !! i = f <$> (l !! i).
Proof. change (map f l) with (f <$> l). apply list_lookup_fmap. Qed.

Lemma traverse_Forall2 {A B} (f : A -> result B) (xs : list A) (ys : list B) :
  traverse f xs = Ok ys -> Forall2 (fun x y => f x = Ok y) xs ys.
Proof.
  revert ys. induction xs as [|x xs IH]; simpl; intros ys H.
  - injection H as <-. constructor.
  - destruct (f x) as [y|] eqn:Hf; simpl in H; [|discriminate].
    destruct (traverse f xs) as [ys'|]; simpl in H; [|discriminate].
    injection H as <-. constructor; auto.
Qed.

Section TransformRows.

Variable L : Library.
Variable E : Env.

Lemma assemble_lookup (symbol : string) (i : nat) :
  forall (dates : list string) (opens highs lows closes : list float)
         (volumes : list (option Z)) d o h l c v,
  dates !! i = Some d -> opens !! i = Some o -> highs !! i = Some h ->
  lows !! i = Some l -> closes !! i = Some c -> volumes !! i = Some v ->
  assemble E symbol dates opens highs lows closes volumes !! i =
  Some (DataFrame.mk d o h l c v symbol (now E) (change_percentage o c)).
Proof.
  induction i as [|i IH];
    intros [|d0 dates] [|o0 opens] [|h0 highs] [|l0 lows] [|c0 closes]
           [|v0 volumes] d o h l c v; simpl; try discriminate.
  - intros [= ->] [= ->] [= ->] [= ->] [= ->] [= ->]. reflexivity.
  - apply IH.
Qed.

Lemma assemble_derived (symbol : string) :
  forall (dates : list string) (opens highs lows closes : list float)
         (volumes : list (option Z)),
  Forall (fun r =>
            DataFrame.daily_change_percentage r =
              change_percentage (DataFrame.open r) (DataFrame.close r) /\
            DataFrame.symbol r = symbol /\
            DataFrame.extraction_timestamp r = now E)
         (assemble E symbol dates opens highs lows closes volumes).
Proof.
  induction dates as [|d dates IH];
    intros [|o opens] [|h highs] [|l lows] [|c closes] [|v volumes];
    simpl; try constructor; auto.
Qed.

(** What a call that returned rows went through. *)
Lemma transform_data_inv (file_path symbol : string) (w w' : World)
    (out : list DataFrame.row) :
  transform_data L E file_path symbol w = (Ok out, w') ->
  out <> [] ->
  w' = w /\
  exists data series df0 opens highs lows closes volumes dates,
    raw_data w !! file_path = Some (Snapshot data) /\
    py_getitem data "Time Series (Daily)" = Ok series /\
    from_dict series = Ok df0 /\
    to_numeric_column L (rename df0) "open" = Ok opens /\
    to_numeric_column L (rename df0) "high" = Ok highs /\
    to_numeric_column L (rename df0) "low" = Ok lows /\
    to_numeric_column L (rename df0) "close" = Ok closes /\
    rbind (getitem_column (rename df0) "volume") (traverse (volume_cell L)) =
      Ok volumes /\
    traverse (to_datetime_date L) (map fst (rows (rename df0))) = Ok dates /\
    out = assemble E symbol dates opens highs lows closes volumes.
Proof.
  intros H Hne. unfold transform_data, try_except in H.
  match type of H with
  | context [match ?body w with _ => _ end] =>
      destruct (body w) as [[out'|e] w''] eqn:Hbody
  end.
  2:{ destruct (transform_handled e); [|discriminate].
      unfold ret in H. injection H as <- _. contradiction. }
  injection H as -> ->.
  unfold bind, lift, json_load, ret in Hbody.
  destruct (raw_data w !! file_path) as [[data| |]|] eqn:H0; try discriminate.
  destruct (py_getitem data "Time Series (Daily)") as [series|] eqn:H1;
    [|discriminate].
  destruct (from_dict series) as [df0|] eqn:H2; [|discriminate].
  destruct (to_numeric_column L (rename df0) "open") as [opens|] eqn:H3;
    [|discriminate].
  destruct (to_numeric_column L (rename df0) "high") as [highs|] eqn:H4;
    [|discriminate].
  destruct (to_numeric_column L (rename df0) "low") as [lows|] eqn:H5;
    [|discriminate].
  destruct (to_numeric_column L (rename df0) "close") as [closes|] eqn:H6;
    [|discriminate].
  destruct (rbind (getitem_column (rename df0) "volume") (traverse (volume_cell L)))
    as [volumes|] eqn:H7; [|discriminate].
  destruct (traverse (to_datetime_date L) (map fst (rows (rename df0))))
    as [dates|] eqn:H8; [|discriminate].
  injection Hbody as <- <-. split; [reflexivity|].
  exists data, series, df0, opens, highs, lows, closes, volumes, dates.
  repeat split; assumption || reflexivity.
Qed.

Lemma getitem_column_inv (df : frame) (col : string) (cells : list (option json)) :
  getitem_column df col = Ok cells ->
  cells = map (fun r => dict_get col r.2) (rows df) /\
  exists c, List.filter (String.eqb col) (columns df) = [c].
Proof.
  unfold getitem_column.
  destruct (List.filter (String.eqb col) (columns df)) as [|c [|c' cs]];
    try discriminate.
  intros [= <-]. split; [reflexivity | exists c; reflexivity].
Qed.

(** A frame with a named column came from a dict of dicts. *)
Lemma from_dict_inv (series : json) (df0 : frame) :
  from_dict series = Ok df0 ->
  columns df0 <> [] ->
  exists days,
    series = JObj days /\
    Forall2 (fun kv r => kv.2 = JObj r.2 /\ r.1 = kv.1) days (rows df0) /\
    columns df0 = remove_dups (concat (map (fun r => map fst r.2) (rows df0))).
Proof.
  intros H Hcols.
  destruct series as [| | | | s | items | fields].
  1-4: discriminate.
  - simpl in H. destruct (String.eqb s ""); discriminate.
  - destruct items; [injection H as <-; contradiction | discriminate].
  - destruct fields as [|[k v] days]; [injection H as <-; contradiction|].
    destruct v as [| | | | | |cells]; try (injection H as <-; contradiction).
    remember ((k, JObj cells) :: days) as all eqn:Hall.
    assert (Hfd : from_dict (JObj all) =
              rbind (traverse (fun kv => rbind (as_dict kv.2) (fun d => Ok (kv.1, d))) all)
                (fun rs => Ok (mkFrame
                   (remove_dups (concat (map (fun r => map fst r.2) rs))) rs))).
    { subst all. reflexivity. }
    rewrite Hfd in H. clear Hfd Hall.
    match type of H with
    | rbind (traverse ?f ?l) _ = _ =>
        destruct (traverse f l) as [rs|] eqn:Ht; [|discriminate]
    end.
    simpl in H. injection H as <-. simpl.
    exists all. split; [reflexivity|]. split; [|reflexivity].
    apply traverse_Forall2 in Ht.
    eapply Forall2_impl; [exact Ht|].
    intros [k' v'] [k'' c]. simpl. unfold as_dict.
    destruct v'; simpl; try discriminate. intros [= -> ->]. auto.
Qed.

(** The label [col] names one column after renaming, and some row has a
    cell under [alias]: then no row has a cell under [col] itself. *)
Lemma renamed_column_unique (cols : list string) (alias col c : string) :
  rename_column col = col ->
  alias <> col ->
  rename_column alias = col ->
  List.filter (String.eqb col) (map rename_column cols) = [c] ->
  In alias cols -> ~ In col cols.
Proof.
  intros Hcol Hne Halias Hone Hin Hin'.
  assert (Hkeep : forall l, In col l ->
            List.filter (String.eqb col) (map rename_column l) <> []).
  { intros l Hl Hnil.
    assert (Hf : In col (List.filter (String.eqb col) (map rename_column l))).
    { apply filter_In. split; [|apply String.eqb_refl].
      rewrite <- Hcol. apply in_map, Hl. }
    rewrite Hnil in Hf. contradiction. }
  destruct (in_split _ _ Hin) as (l1 & l2 & ->).
  rewrite map_app, List.filter_app in Hone. simpl in Hone.
  rewrite Halias, String.eqb_refl in Hone.
  apply in_app_or in Hin'. destruct Hin' as [H1 | [H2 | H2]].
  - specialize (Hkeep l1 H1).
    destruct (List.filter (String.eqb col) (map rename_column l1)) as [|x xs];
      [contradiction|].
    simpl in Hone. injection Hone as _ Hone.
    destruct xs; discriminate.
  - contradiction.
  - specialize (Hkeep l2 H2).
    destruct (List.filter (String.eqb col) (map rename_column l1)) as [|x xs].
    + simpl in Hone. injection Hone as _ Hone. contradiction.
    + simpl in Hone. injection Hone as _ Hone. destruct xs; discriminate.
Qed.

Lemma dict_get_renamed (cells : list (string * json)) (alias col : string) :
  rename_column alias = col ->
  (forall k, rename_column k = col -> k = alias \/ k = col) ->
  ~ In col (map fst cells) ->
  dict_get col (map (fun cv => (rename_column cv.1, cv.2)) cells) =
  dict_get alias cells.
Proof.
  intros Halias Honly. induction cells as [|[k v] cells IH]; simpl; intros Hnot.
  - reflexivity.
  - destruct (String.eqb_spec col (rename_column k)) as [Heq|Hneq].
    + destruct (Honly k (eq_sym Heq)) as [-> | ->]; [|tauto].
      rewrite String.eqb_refl. reflexivity.
    + destruct (String.eqb_spec alias k) as [<-|_]; [congruence|].
      apply IH. tauto.
Qed.

Lemma dict_get_In {V} (k : string) (d : list (string * V)) (v : V) :
  dict_get k d = Some v -> In k (map fst d).
Proof.
  induction d as [|[k' v'] d IH]; simpl; [discriminate|].
  destruct (String.eqb_spec k k'); auto.
Qed.

Lemma rename_column_only (alias col k : string) :
  In (alias, col)
     [("1. open", "open"); ("2. high", "high"); ("3. low", "low");
      ("4. close", "close"); ("5. volume", "volume")] ->
  rename_column k = col -> k = alias \/ k = col.
Proof.
  unfold rename_column. simpl.
  intros [[= <- <-] | [[= <- <-] | [[= <- <-] | [[= <- <-] | [[= <- <-] | []]]]]];
    destruct (String.eqb_spec k "1. open") as [->|?]; auto; try discriminate;
    destruct (String.eqb_spec k "2. high") as [->|?]; auto; try discriminate;
    destruct (String.eqb_spec k "3. low") as [->|?]; auto; try discriminate;
    destruct (String.eqb_spec k "4. close") as [->|?]; auto; try discriminate;
    destruct (String.eqb_spec k "5. volume") as [->|?]; auto; try discriminate.
Qed.

(** The cell of one day in one column, and the value the column's
    conversion gave it. *)
Lemma column_cell {A} (df0 : frame) (alias col : string)
    (f : option json -> result A) (values : list A) (i : nat) (d : string)
    (cells : list (string * json)) :
  In (alias, col)
     [("1. open", "open"); ("2. high", "high"); ("3. low", "low");
      ("4. close", "close"); ("5. volume", "volume")] ->
  columns df0 = remove_dups (concat (map (fun r => map fst r.2) (rows df0))) ->
  rbind (getitem_column (rename df0) col) (traverse f) = Ok values ->
  rows df0 !! i = Some (d, cells) ->
  exists x, values !! i = Some x /\
            forall v, dict_get alias cells = Some v -> f (Some v) = Ok x.
Proof.
  intros Hpair Hcols Hconv Hrow.
  destruct (getitem_column (rename df0) col) as [cs|] eqn:Hget; [|discriminate].
  simpl in Hconv. apply getitem_column_inv in Hget. destruct Hget as [-> [c Hone]].
  apply traverse_Forall2 in Hconv.
  assert (Hcell : map (fun r => dict_get col r.2) (rows (rename df0)) !! i =
            Some (dict_get col (map (fun cv => (rename_column cv.1, cv.2)) cells))).
  { unfold rename. simpl. rewrite !lookup_map, Hrow. reflexivity. }
  destruct (Forall2_lookup_l _ _ _ _ _ Hconv Hcell) as (x & Hx & Hfx).
  exists x. split; [exact Hx|]. intros v Hv.
  assert (Hsub : forall k, In k (map fst cells) -> In k (columns df0)).
  { intros k Hk. rewrite Hcols. apply list_elem_of_In, elem_of_remove_dups,
      list_elem_of_In, in_concat.
    exists (map fst cells). split; [|exact Hk].
    apply in_map_iff. exists (d, cells). split; [reflexivity|].
    apply list_elem_of_In, list_elem_of_lookup. eauto. }
  assert (Hfacts : rename_column col = col /\ alias <> col /\ rename_column alias = col).
  { simpl in Hpair.
    destruct Hpair as [[= <- <-] | [[= <- <-] | [[= <- <-] | [[= <- <-] | [[= <- <-] | []]]]]];
      repeat split; discriminate. }
  destruct Hfacts as (Hcol & Hne & Halias).
  assert (Hnot : ~ In col (map fst cells)).
  { intros Hin. apply Hsub in Hin. revert Hin.
    apply (renamed_column_unique (columns df0) alias col c Hcol Hne Halias Hone).
    apply Hsub. eapply dict_get_In, Hv. }
  rewrite (dict_get_renamed cells alias col Halias
             (fun k => rename_column_only alias col k Hpair) Hnot), Hv in Hfx.
  exact Hfx.
Qed.

(** The row that a successful call gives for the day at position [i]. *)
Lemma transform_data_row (file_path symbol : string) (w w' : World)
    (out : list DataFrame.row) (data : json) (days : list (string * json))
    (i : nat) (d : string) (cells : list (string * json)) :
  transform_data L E file_path symbol w = (Ok out, w') ->
  out <> [] ->
  raw_data w !! file_path = Some (Snapshot data) ->
  py_getitem data "Time Series (Daily)" = Ok (JObj days) ->
  days !! i = Some (d, JObj cells) ->
  exists r,
    out !! i = Some r /\
    to_datetime_date L d = Ok (DataFrame.date r) /\
    (forall v, dict_get "1. open" cells = Some v -> to_numeric L v = Ok (DataFrame.open r)) /\
    (forall v, dict_get "2. high" cells = Some v -> to_numeric L v = Ok (DataFrame.high r)) /\
    (forall v, dict_get "3. low" cells = Some v -> to_numeric L v = Ok (DataFrame.low r)) /\
    (forall v, dict_get "4. close" cells = Some v -> to_numeric L v = Ok (DataFrame.close r)) /\
    (forall v, dict_get "5. volume" cells = Some v ->
               volume_cell L (Some v) = Ok (DataFrame.volume r)).
Proof.
  intros Hrun Hne Hfile Hseries Hday.
  destruct (transform_data_inv _ _ _ _ _ Hrun Hne)
    as (_ & data' & series & df0 & opens & highs & lows & closes & volumes & dates
        & Hfile' & Hseries' & Hfd & Ho & Hh & Hl & Hc & Hv & Hd & ->).
  rewrite Hfile in Hfile'. injection Hfile' as <-.
  rewrite Hseries in Hseries'. injection Hseries' as <-.
  assert (Hcols : columns df0 <> []).
  { unfold to_numeric_column in Ho.
    destruct (getitem_column (rename df0) "open") as [cs|] eqn:Hget; [|discriminate].
    apply getitem_column_inv in Hget. destruct Hget as [_ [c Hone]].
    intros Hnil. unfold rename in Hone. simpl in Hone. rewrite Hnil in Hone.
    discriminate. }
  destruct (from_dict_inv _ _ Hfd Hcols) as (days0 & [= <-] & Hrows & Hlabels).
  destruct (Forall2_lookup_l _ _ _ _ _ Hrows Hday) as ([d0 cells0] & Hrow & Hc0 & Hd0).
  simpl in Hc0, Hd0. injection Hc0 as <-. subst d0.
  unfold to_numeric_column in Ho, Hh, Hl, Hc.
  destruct (column_cell df0 "1. open" "open" _ _ i d cells ltac:(simpl; tauto) Hlabels Ho Hrow)
    as (o & Hio & Hco).
  destruct (column_cell df0 "2. high" "high" _ _ i d cells ltac:(simpl; tauto) Hlabels Hh Hrow)
    as (h & Hih & Hch).
  destruct (column_cell df0 "3. low" "low" _ _ i d cells ltac:(simpl; tauto) Hlabels Hl Hrow)
    as (l & Hil & Hcl).
  destruct (column_cell df0 "4. close" "close" _ _ i d cells ltac:(simpl; tauto) Hlabels Hc Hrow)
    as (c & Hic & Hcc).
  destruct (column_cell df0 "5. volume" "volume" _ _ i d cells ltac:(simpl; tauto) Hlabels Hv Hrow)
    as (v & Hiv & Hcv).
  apply traverse_Forall2 in Hd.
  assert (Hdi : map fst (rows (rename df0)) !! i = Some d).
  { unfold rename. simpl. rewrite !lookup_map, Hrow. reflexivity. }
  destruct (Forall2_lookup_l _ _ _ _ _ Hd Hdi) as (dt & Hidt & Hcdt).
  eexists. split; [apply (assemble_lookup symbol i _ _ _ _ _ _ dt o h l c v); assumption|].
  simpl. repeat split; assumption.
Qed.

Lemma transform_data_symbol (file_path symbol : string) (w w' : World)
    (out : list DataFrame.row) (r : DataFrame.row) :
  transform_data L E file_path symbol w = (Ok out, w') ->
  In r out -> DataFrame.symbol r = symbol.
Proof.
  intros Hrun Hin. destruct out as [|r0 out]; [contradiction|].
  destruct (transform_data_inv _ _ _ _ _ Hrun ltac:(discriminate))
    as (_ & data & series & df0 & opens & highs & lows & closes & volumes & dates
        & _ & _ & _ & _ & _ & _ & _ & _ & _ & Hout).
  rewrite Hout in Hin.
  pose proof (assemble_derived symbol dates opens highs lows closes volumes) as Hall.
  rewrite List.Forall_forall in Hall. apply Hall in Hin. tauto.
Qed.

End TransformRows.

(** ** Load: a missing volume cannot be bound *)

Lemma bind_parameters_missing_volume (df : list DataFrame.row) (r : DataFrame.row) :
  In r df -> DataFrame.volume r = None ->
  traverse bind_parameters df = Raise ProgrammingError.
Proof.
  induction df as [|r0 df IH]; simpl; [tauto|].
  intros [-> | Hin] Hv.
  - unfold bind_parameters at 1. rewrite Hv. reflexivity.
  - unfold bind_parameters at 1.
    destruct (DataFrame.volume r0); [|reflexivity].
    simpl. rewrite (IH Hin Hv). reflexivity.
Qed.

Lemma load_refuses_missing_volume (df : list DataFrame.row) (r : DataFrame.row)
    (w : World) :
  In r df -> DataFrame.volume r = None ->
  exists e, load_data_to_db df w = (Raise e, w).
Proof.
  intros Hin Hv. destruct df as [|r0 df]; [contradiction|].
  rewrite load_data_to_db_rows.
  destruct (stock_daily_data w); [|eexists; reflexivity].
  rewrite (bind_parameters_missing_volume _ r Hin Hv). eexists. reflexivity.
Qed.

(** C5, as amended.  Take a series none of whose days has a cell named
    index or date, and in it a day whose volume value is not converted to
    an integer; a value that pd.to_numeric cannot parse is such a value,
    coerced to the missing marker.  A transform that returns rows keeps a
    row for that day, under the day's date and the call's symbol, with
    the missing marker (not zero) for volume and with the four prices
    converted from the day's values.  That row is not stored: the volume
    column of the store is NOT NULL, and after the load every record that
    has the row's key, or a null volume, is one the store already held. *)
Theorem unparseable_volume_kept_not_stored (L : Library) (E : Env)
    (file_path symbol : string) (w w' : World) (out : list DataFrame.row)
    (data : json) (days : list (string * json)) (d : string)
    (cells : list (string * json)) (v : json) :
  transform_data L E file_path symbol w = (Ok out, w') ->
  out <> [] ->
  raw_data w !! file_path = Some (Snapshot data) ->
  py_getitem data "Time Series (Daily)" = Ok (JObj days) ->
  plain_cells days ->
  In (d, JObj cells) days ->
  dict_get "5. volume" cells = Some v ->
  (forall n, volume_cell L (Some v) <> Ok (Some n)) ->
  (forall x e, to_numeric L x = Raise e -> volume_cell L (Some x) = Ok None) /\
  exists r,
    In r out /\
    to_datetime_date L d = Ok (DataFrame.date r) /\
    DataFrame.symbol r = symbol /\
    DataFrame.volume r = None /\
    (forall x, dict_get "1. open" cells = Some x -> to_numeric L x = Ok (DataFrame.open r)) /\
    (forall x, dict_get "2. high" cells = Some x -> to_numeric L x = Ok (DataFrame.high r)) /\
    (forall x, dict_get "3. low" cells = Some x -> to_numeric L x = Ok (DataFrame.low r)) /\
    (forall x, dict_get "4. close" cells = Some x -> to_numeric L x = Ok (DataFrame.close r)) /\
    (forall rec, In rec (table (load_data_to_db out w').2) ->
                 key rec = row_key r \/ Table.volume rec = None ->
                 In rec (table w')).
Proof.
  intros Hrun Hne Hfile Hseries _ Hin Hcell Hnum.
  split.
  { intros x e Hx. unfold volume_cell. rewrite Hx. reflexivity. }
  apply list_elem_of_In, list_elem_of_lookup in Hin. destruct Hin as [i Hday].
  destruct (transform_data_row L E _ _ _ _ _ _ _ _ _ _ Hrun Hne Hfile Hseries Hday)
    as (r & Hr & Hdate & Ho & Hh & Hl & Hc & Hv).
  specialize (Hv v Hcell).
  assert (Hna : DataFrame.volume r = None).
  { destruct (DataFrame.volume r) as [n|]; [|reflexivity].
    exfalso. exact (Hnum n Hv). }
  assert (Hrin : In r out).
  { apply list_elem_of_In, list_elem_of_lookup. eauto. }
  exists r. split; [exact Hrin|]. split; [exact Hdate|].
  split; [exact (transform_data_symbol L E _ _ _ _ _ _ Hrun Hrin)|].
  split; [exact Hna|].
  split; [exact Ho|]. split; [exact Hh|]. split; [exact Hl|]. split; [exact Hc|].
  intros rec Hrec _.
  destruct (load_refuses_missing_volume out r w' Hrin Hna) as [e0 Hload].
  rewrite Hload in Hrec. exact Hrec.
Qed.

Lemma unparseable_volume_kept_not_stored_witness :
  let E := sample_env (Some "demo") server_ok in
  let file_path := "AAPL_2024-03-06.json" in
  let w := with_snapshot file_path payload_volume in
  let out := rows_of (transform_data sample_library E file_path "AAPL" w) in
  let cells := [("1. open", JStr "100.0000"); ("2. high", JStr "106.5000");
                ("3. low", JStr "99.2500"); ("4. close", JStr "105.0000");
                ("5. volume", JStr "n/a")] in
  (transform_data sample_library E file_path "AAPL" w = (Ok out, w) /\
   out <> [] /\
   plain_cells [("2024-03-05", JObj cells)] /\
   to_numeric sample_library (JStr "n/a") = Raise ValueError /\
   (forall n, volume_cell sample_library (Some (JStr "n/a")) <> Ok (Some n))) /\
  (forall x e, to_numeric sample_library x = Raise e ->
               volume_cell sample_library (Some x) = Ok None) /\
  exists r,
    In r out /\
    to_datetime_date sample_library "2024-03-05" = Ok (DataFrame.date r) /\
    DataFrame.symbol r = "AAPL" /\
    DataFrame.volume r = None /\
    (forall x, dict_get "1. open" cells = Some x ->
               to_numeric sample_library x = Ok (DataFrame.open r)) /\
    (forall x, dict_get "2. high" cells = Some x ->
               to_numeric sample_library x = Ok (DataFrame.high r)) /\
    (forall x, dict_get "3. low" cells = Some x ->
               to_numeric sample_library x = Ok (DataFrame.low r)) /\
    (forall x, dict_get "4. close" cells = Some x ->
               to_numeric sample_library x = Ok (DataFrame.close r)) /\
    (forall rec, In rec (table (load_data_to_db out w).2) ->
                 key rec = row_key r \/ Table.volume rec = None ->
                 In rec (table w)).
Proof.
  intros E file_path w out cells.
  assert (Hrun : transform_data sample_library E file_path "AAPL" w = (Ok out, w))
    by (vm_compute; reflexivity).
  assert (Hne : out <> []) by (vm_compute; discriminate).
  assert (Hplain : plain_cells [("2024-03-05", JObj cells)]).
  { intros d c [[= <- <-] | []]. split; reflexivity. }
  assert (Hnum : forall n, volume_cell sample_library (Some (JStr "n/a")) <> Ok (Some n))
    by (intros n; vm_compute; discriminate).
  split; [split; [exact Hrun | split; [exact Hne | split; [exact Hplain |
          split; [reflexivity | exact Hnum]]]]|].
  exact (unparseable_volume_kept_not_stored sample_library E file_path "AAPL" w w out
           payload_volume [("2024-03-05", JObj cells)] "2024-03-05" cells
           (JStr "n/a") Hrun Hne eq_refl eq_refl Hplain
           (or_introl eq_refl) eq_refl Hnum).
Defined.

(** C5 as the specification has it fails: the row with the missing
    volume comes out of the transform, and after the load the store holds
    no record for its day. *)
Lemma unparseable_volume_row_is_not_inserted :
  let E := sample_env (Some "demo") server_ok in
  let file_path := "AAPL_2024-03-06.json" in
  let w := with_snapshot file_path payload_volume in
  let out := rows_of (transform_data sample_library E file_path "AAPL" w) in
  (exists r, out = [r] /\ DataFrame.date r = "2024-03-05" /\
             DataFrame.volume r = None) /\
  ~ (exists stored,
       In stored (table (load_data_to_db out w).2) /\
       key stored = ("AAPL", "2024-03-05")).
Proof.
  intros E file_path w out. split.
  - eexists. split; [vm_compute; reflexivity|]. split; reflexivity.
  - intros (stored & Hin & _).
    assert (Hempty : table (load_data_to_db out w).2 = []) by (vm_compute; reflexivity).
    rewrite Hempty in Hin. contradiction.
Qed.

(** ** The derived column *)

(** C6, as amended.  In every row that the transform returns, the field
    is the float64 value of (close - open) / open * 100, so open = 100 and
    close = 105 give exactly 5.0.  A zero open raises nothing; the field
    is then what the float division gives: with close = 105 it is
    +infinity, which the store keeps as a real, and with close = 0 it is
    NaN, which the store keeps as NULL. *)
Theorem daily_change_percentage_value (L : Library) (E : Env)
    (file_path symbol : string) (w w' : World) (out : list DataFrame.row) :
  transform_data L E file_path symbol w = (Ok out, w') ->
  Forall (fun r => DataFrame.daily_change_percentage r =
                   change_percentage (DataFrame.open r) (DataFrame.close r)) out /\
  change_percentage 100 105 = 5%float /\
  (change_percentage 0 105 = infinity /\ bind_float infinity = Some infinity) /\
  (is_nan (change_percentage 0 0) = true /\
   bind_float (change_percentage 0 0) = None).
Proof.
  intros Hrun. split; [|repeat split].
  destruct out as [|r out]; [constructor|].
  destruct (transform_data_inv L E _ _ _ _ _ Hrun ltac:(discriminate))
    as (_ & data & series & df0 & opens & highs & lows & closes & volumes & dates
        & _ & _ & _ & _ & _ & _ & _ & _ & _ & ->).
  eapply Forall_impl; [apply assemble_derived|].
  intros r' (Hpct & _). exact Hpct.
Qed.

Lemma daily_change_percentage_value_witness :
  let E := sample_env (Some "demo") server_ok in
  let file_path := "AAPL_2024-03-06.json" in
  let w := with_snapshot file_path payload_zero in
  let out := rows_of (transform_data sample_library E file_path "AAPL" w) in
  transform_data sample_library E file_path "AAPL" w = (Ok out, w) /\
  (exists r, out = [r] /\ DataFrame.open r = 0%float /\
             DataFrame.close r = 105%float) /\
  Forall (fun r => DataFrame.daily_change_percentage r =
                   change_percentage (DataFrame.open r) (DataFrame.close r)) out /\
  change_percentage 100 105 = 5%float /\
  (change_percentage 0 105 = infinity /\ bind_float infinity = Some infinity) /\
  (is_nan (change_percentage 0 0) = true /\
   bind_float (change_percentage 0 0) = None).
Proof.
  intros E file_path w out.
  assert (Hrun : transform_data sample_library E file_path "AAPL" w = (Ok out, w))
    by (vm_compute; reflexivity).
  split; [exact Hrun|].
  split; [eexists; split; [vm_compute; reflexivity | split; reflexivity]|].
  exact (daily_change_percentage_value sample_library E file_path "AAPL" w w out Hrun).
Defined.

(** C6 as the specification has it fails: a day that opens at zero and
    closes at 105 gets +infinity, a float that is no NaN and that the
    store keeps as a real value, not as NULL. *)
Lemma zero_open_is_not_a_null_marker :
  let E := sample_env (Some "demo") server_ok in
  let file_path := "AAPL_2024-03-06.json" in
  let w := with_snapshot file_path payload_zero in
  let out := rows_of (transform_data sample_library E file_path "AAPL" w) in
  ~ (forall r, In r out -> DataFrame.open r = 0%float ->
       is_nan (DataFrame.daily_change_percentage r) = true \/
       bind_float (DataFrame.daily_change_percentage r) = None).
Proof.
  intros E file_path w out Hall.
  assert (Hout : exists r, out = [r] /\ DataFrame.open r = 0%float /\
            DataFrame.daily_change_percentage r = infinity).
  { eexists. split; [vm_compute; reflexivity | split; reflexivity]. }
  destruct Hout as (r & Hr & Hopen & Hpct).
  destruct (Hall r) as [Hnan | Hnull].
  - rewrite Hr. left. reflexivity.
  - exact Hopen.
  - rewrite Hpct in Hnan. vm_compute in Hnan. discriminate.
  - rewrite Hpct in Hnull. vm_compute in Hnull. discriminate.
Qed.

(** ** Extract: the choice between compact and full *)

Lemma list_ascii_of_string_app (a b : string) :
  list_ascii_of_string (a ++ b)%string =
  list_ascii_of_string a ++ list_ascii_of_string b.
Proof. induction a as [|c a IH]; simpl; [reflexivity | now rewrite IH]. Qed.

Lemma fnmatch_nil (name : list ascii) : fnmatch [] name = true <-> name = [].
Proof. destruct name; simpl; split; congruence. Qed.

Lemma fnmatch_star (pat name : list ascii) :
  fnmatch ("*"%char :: pat) name =
  fnmatch pat name ||
  match name with
  | [] => false
  | _ :: name' => fnmatch ("*"%char :: pat) name'
  end.
Proof. destruct name; reflexivity. Qed.

Lemma fnmatch_literal (c : ascii) (pat name : list ascii) :
  pattern_char c = false ->
  fnmatch (c :: pat) name =
  match name with
  | [] => false
  | c' :: name' => Ascii.eqb c c' && fnmatch pat name'
  end.
Proof.
  destruct c as [b0 b1 b2 b3 b4 b5 b6 b7].
  destruct b0, b1, b2, b3, b4, b5, b6, b7; intros H;
    solve [discriminate H | reflexivity].
Qed.

Lemma fnmatch_literal_prefix (lit pat name : list ascii) :
  forallb (fun c => negb (pattern_char c)) lit = true ->
  fnmatch (lit ++ pat) name = true <->
  exists rest, name = lit ++ rest /\ fnmatch pat rest = true.
Proof.
  revert name. induction lit as [|c lit IH]; intros name Hlit.
  - simpl. split; [intros H; exists name; auto | intros (rest & -> & H); exact H].
  - simpl in Hlit. apply andb_true_iff in Hlit. destruct Hlit as [Hc Hlit].
    apply negb_true_iff in Hc.
    change ((c :: lit) ++ pat) with (c :: (lit ++ pat)).
    rewrite (fnmatch_literal c _ _ Hc).
    destruct name as [|c' name].
    + split; [discriminate | intros (rest & [=] & _)].
    + rewrite andb_true_iff, Ascii.eqb_eq, (IH name Hlit). split.
      * intros (-> & rest & -> & H). exists rest. auto.
      * intros (rest & [= -> ->] & H). split; [reflexivity|]. exists rest. auto.
Qed.

Lemma fnmatch_star_suffix (pat name : list ascii) :
  fnmatch ("*"%char :: pat) name = true <->
  exists d rest, name = d ++ rest /\ fnmatch pat rest = true.
Proof.
  induction name as [|c name IH]; rewrite fnmatch_star, orb_true_iff.
  - split.
    + intros [H | H]; [|discriminate]. exists [], []. auto.
    + intros (d & rest & Heq & H). left.
      symmetry in Heq. apply app_eq_nil in Heq. destruct Heq as [_ ->]. exact H.
  - rewrite IH. split.
    + intros [H | (d & rest & -> & H)].
      * exists [], (c :: name). auto.
      * exists (c :: d), rest. auto.
    + intros ([|c' d] & rest & Heq & H).
      * left. simpl in Heq. subst rest. exact H.
      * right. simpl in Heq. injection Heq as -> ->. exists d, rest. auto.
Qed.

(** With a plain symbol, the pattern {symbol}_*.json matches the names
    {symbol}_ ... .json and no others. *)
Lemma glob_match_snapshot (symbol name : string) :
  plain_symbol symbol = true ->
  glob_match (symbol ++ "_*.json")%string name = true <->
  exists d, name = (symbol ++ "_" ++ d ++ ".json")%string.
Proof.
  intros Hplain. unfold glob_match.
  change (symbol ++ "_*.json")%string with (symbol ++ ("_" ++ "*.json"))%string.
  assert (Hpat : list_ascii_of_string (symbol ++ ("_" ++ "*.json"))%string =
            (list_ascii_of_string symbol ++ ["_"%char]) ++
            "*"%char :: list_ascii_of_string ".json").
  { rewrite list_ascii_of_string_app, <- app_assoc. reflexivity. }
  rewrite Hpat. clear Hpat.
  rewrite fnmatch_literal_prefix.
  2:{ rewrite forallb_app, andb_true_iff. split; [exact Hplain | reflexivity]. }
  split.
  - intros (rest & Hname & Hrest).
    apply fnmatch_star_suffix in Hrest. destruct Hrest as (d & tail & -> & Htail).
    change (list_ascii_of_string ".json") with (list_ascii_of_string ".json" ++ [])
      in Htail.
    apply fnmatch_literal_prefix in Htail; [|reflexivity].
    destruct Htail as (rest' & -> & Hnil). apply fnmatch_nil in Hnil. subst rest'.
    exists (string_of_list_ascii d).
    rewrite <- (string_of_list_ascii_of_string name), Hname.
    rewrite <- (string_of_list_ascii_of_string
                  (symbol ++ "_" ++ string_of_list_ascii d ++ ".json")%string).
    f_equal. rewrite !list_ascii_of_string_app, list_ascii_of_string_of_list_ascii.
    rewrite <- !app_assoc. reflexivity.
  - intros (d & ->).
    exists (list_ascii_of_string d ++ list_ascii_of_string ".json"). split.
    + rewrite !list_ascii_of_string_app, <- !app_assoc. reflexivity.
    + apply fnmatch_star_suffix.
      exists (list_ascii_of_string d), (list_ascii_of_string ".json").
      split; reflexivity.
Qed.

Lemma filter_nonempty {A} (P : A -> bool) (l : list A) :
  List.filter P l <> [] <-> exists x, In x l /\ P x = true.
Proof.
  split.
  - destruct (List.filter P l) as [|x xs] eqn:Hf; [contradiction|].
    intros _. exists x. apply filter_In. rewrite Hf. now left.
  - intros (x & Hin & HP) Hnil.
    assert (In x (List.filter P l)) as Hx by (apply filter_In; auto).
    rewrite Hnil in Hx. contradiction.
Qed.

Lemma In_file_names (m : gmap string file) (name : string) :
  In name (map fst (map_to_list m)) <-> is_Some (m !! name).
Proof.
  rewrite in_map_iff. split.
  - intros ([name' f] & <- & Hin). exists f.
    apply elem_of_map_to_list, list_elem_of_In, Hin.
  - intros [f Hf]. exists (name, f). split; [reflexivity|].
    apply list_elem_of_In, elem_of_map_to_list, Hf.
Qed.

Lemma output_size_spec (symbol : string) (w : World) :
  plain_symbol symbol = true ->
  exists mode,
    output_size symbol w = (Ok mode, w) /\
    (mode = "compact" <->
     exists d, is_Some (raw_data w !! (symbol ++ "_" ++ d ++ ".json")%string)) /\
    (mode = "full" <->
     ~ exists d, is_Some (raw_data w !! (symbol ++ "_" ++ d ++ ".json")%string)).
Proof.
  intros Hplain.
  set (found := List.filter (glob_match (symbol ++ "_*.json")%string)
                  (map fst (map_to_list (raw_data w)))).
  assert (Hfound : found <> [] <->
            exists d, is_Some (raw_data w !! (symbol ++ "_" ++ d ++ ".json")%string)).
  { unfold found. rewrite filter_nonempty. split.
    - intros (name & Hin & Hm). apply glob_match_snapshot in Hm; [|exact Hplain].
      destruct Hm as (d & ->). exists d. apply In_file_names, Hin.
    - intros (d & Hd). eexists. split; [apply In_file_names, Hd|].
      apply glob_match_snapshot; [exact Hplain | exists d; reflexivity]. }
  exists (match found with _ :: _ => "compact" | [] => "full" end).
  split; [reflexivity|]. rewrite <- Hfound. split.
  - destruct found; split; congruence.
  - destruct found; split; try congruence.
    intros H. exfalso. apply H. discriminate.
Qed.


(** A fetch that returns an artifact has written it under
    {symbol}_{today}.json. *)
Lemma fetch_stock_data_saves (L : Library) (E : Env) (symbol file_path : string)
    (w w' : World) :
  fetch_stock_data L E symbol w = (Ok (Some file_path), w') ->
  file_path = (symbol ++ "_" ++ today E ++ ".json")%string /\
  exists data, raw_data w' !! file_path = Some (Snapshot data).
Proof.
  unfold fetch_stock_data, bind.
  destruct (output_size_returns symbol w) as [mode ->].
  unfold try_except, bind, lift, ret, raise.
  destruct (requests_get_json E (fetch_params E symbol mode)) as [data|e]; simpl.
  2:{ destruct (fetch_handled e); discriminate. }
  destruct (py_contains "Information" data) as [[|]|e]; simpl.
  - destruct (py_getitem data "Information") as [info|e]; simpl;
      [discriminate | destruct (fetch_handled e); discriminate].
  - destruct (model_validate L data) as [[]|e]; simpl.
    + unfold json_dump.
      destruct (raw_data w !! (symbol ++ "_" ++ today E ++ ".json")%string)
        as [[]|]; simpl; try discriminate;
        intros [= <- <-]; (split; [reflexivity|]); exists data; simpl;
        apply lookup_insert_eq.
    + destruct (fetch_handled e); discriminate.
  - destruct (fetch_handled e); discriminate.
Qed.

(** Once a snapshot has been saved for a symbol, the next fetch of the
    symbol asks for the recent window. *)
Lemma output_size_after_fetch (L : Library) (E : Env) (symbol file_path : string)
    (w w' : World) :
  plain_symbol symbol = true ->
  fetch_stock_data L E symbol w = (Ok (Some file_path), w') ->
  output_size symbol w' = (Ok "compact", w').
Proof.
  intros Hplain Hfetch.
  destruct (fetch_stock_data_saves _ _ _ _ _ _ Hfetch) as (-> & data & Hfile).
  destruct (output_size_spec symbol w' Hplain) as (mode & Hsize & Hcompact & _).
  assert (mode = "compact") as ->; [|exact Hsize].
  apply Hcompact. exists (today E). rewrite Hfile. eauto.
Qed.








(** * Further properties of the pipeline *)

(** ** Relations kept by every statement of a block *)

Section Respects.

Variable R : World -> World -> Prop.
Hypothesis R_refl : forall w, R w w.
Hypothesis R_trans : forall w1 w2 w3, R w1 w2 -> R w2 w3 -> R w1 w3.

Lemma respects_ret {A} (a : A) : respects R (ret a).
Proof. intros w. apply R_refl. Qed.

Lemma respects_raise {A} (e : exn) : respects R (@raise A e).
Proof. intros w. apply R_refl. Qed.

Lemma respects_lift {A} (r : result A) : respects R (lift r).
Proof. intros w. apply R_refl. Qed.

Lemma respects_bind {A B} (m : M A) (k : A -> M B) :
  respects R m -> (forall a, respects R (k a)) -> respects R (bind m k).
Proof.
  intros Hm Hk w. unfold bind. specialize (Hm w).
  destruct (m w) as [[a|e] w']; simpl in *; [|assumption].
  eapply R_trans; [exact Hm | apply Hk].
Qed.

Lemma respects_try_except {A} (body : M A) (classes : exn -> bool) (handler : M A) :
  respects R body -> respects R handler ->
  respects R (try_except body classes handler).
Proof.
  intros Hb Hh w. unfold try_except. specialize (Hb w).
  destruct (body w) as [[a|e] w']; simpl in *; [assumption|].
  destruct (classes e); [|assumption].
  eapply R_trans; [exact Hb | apply Hh].
Qed.

Lemma respects_json_load (file_path : string) : respects R (json_load file_path).
Proof.
  intros w. unfold json_load.
  destruct (raw_data w !! file_path) as [[]|]; apply R_refl.
Qed.

Lemma respects_transform_data (L : Library) (E : Env) (file_path symbol : string) :
  respects R (transform_data L E file_path symbol).
Proof.
  unfold transform_data.
  repeat first
    [ apply respects_bind; [|intros ?]
    | apply respects_try_except
    | apply respects_json_load
    | apply respects_ret
    | apply respects_lift ].
Qed.

(** A block of the pipeline keeps what its three writers keep. *)
Lemma respects_fetch_stock_data (L : Library) (E : Env) (symbol : string) :
  (forall data, respects R (json_dump (snapshot_name E symbol) data)) ->
  respects R (fetch_stock_data L E symbol).
Proof.
  intros Hdump. unfold fetch_stock_data, output_size, glob.
  apply respects_bind; [|intros mode].
  { apply respects_bind; [intros w; apply R_refl | intros ?; apply respects_ret]. }
  apply respects_try_except; [|apply respects_ret].
  repeat first
    [ apply respects_bind; [|intros ?]
    | apply Hdump
    | apply respects_ret
    | apply respects_raise
    | apply respects_lift
    | match goal with |- respects R (if ?b then _ else _) => destruct b end ].
Qed.

Lemma respects_process_symbol (L : Library) (E : Env) (symbol : string) :
  (forall data, respects R (json_dump (snapshot_name E symbol) data)) ->
  (forall df, respects R (load_data_to_db df)) ->
  respects R (process_symbol L E symbol).
Proof.
  intros Hdump Hload. unfold process_symbol.
  apply respects_bind; [apply respects_fetch_stock_data, Hdump|].
  intros [file_path|]; [|apply respects_ret].
  apply respects_bind; [apply respects_transform_data|]. intros df.
  apply respects_bind; [apply Hload|]. intros _. apply respects_ret.
Qed.

Lemma respects_for_symbols (L : Library) (E : Env) (symbols : list string) :
  (forall symbol data, In symbol symbols ->
     respects R (json_dump (snapshot_name E symbol) data)) ->
  (forall df, respects R (load_data_to_db df)) ->
  respects R (for_symbols L E symbols).
Proof.
  intros Hdump Hload.
  induction symbols as [|symbol symbols IH]; simpl; [apply respects_ret|].
  apply respects_bind.
  - apply respects_process_symbol; [|exact Hload].
    intros data. apply Hdump. now left.
  - intros _. apply IH. intros s data Hin. apply Hdump. now right.
Qed.

Lemma respects_run_etl_pipeline (L : Library) (E : Env) :
  respects R setup_database ->
  (forall symbol data, In symbol SYMBOLS ->
     respects R (json_dump (snapshot_name E symbol) data)) ->
  (forall df, respects R (load_data_to_db df)) ->
  respects R (run_etl_pipeline L E).
Proof.
  intros Hsetup Hdump Hload. unfold run_etl_pipeline.
  apply respects_bind; [exact Hsetup|].
  intros _. apply respects_for_symbols; assumption.
Qed.

End Respects.


(** ** Extract: every outcome of a fetch *)

(** A fetch either leaves the world as it is, or returns the name of
    today's snapshot after writing one payload under it. *)
Lemma fetch_stock_data_outcome (L : Library) (E : Env) (symbol : string) (w : World) :
  (exists r, fetch_stock_data L E symbol w = (r, w) /\ r <> Ok (Some (snapshot_name E symbol)))
  \/ (exists data,
        raw_data w !! snapshot_name E symbol <> Some Unreadable /\
        fetch_stock_data L E symbol w =
          (Ok (Some (snapshot_name E symbol)),
           {| raw_data := <[snapshot_name E symbol := Snapshot data]> (raw_data w);
              stock_daily_data := stock_daily_data w |})).
Proof.
  unfold fetch_stock_data, bind.
  destruct (output_size_returns symbol w) as [mode ->].
  unfold try_except, bind, lift, ret, raise.
  destruct (requests_get_json E (fetch_params E symbol mode)) as [data|e]; simpl.
  2:{ left. destruct (fetch_handled e); eexists; split; try reflexivity; discriminate. }
  destruct (py_contains "Information" data) as [[|]|e]; simpl.
  - left. destruct (py_getitem data "Information") as [info|e]; simpl;
      [|destruct (fetch_handled e)]; eexists; split; try reflexivity; discriminate.
  - destruct (model_validate L data) as [[]|e]; simpl.
    + unfold json_dump. fold (snapshot_name E symbol).
      destruct (raw_data w !! snapshot_name E symbol) as [[]|] eqn:Hfile; simpl.
      * right. exists data. split; [discriminate | reflexivity].
      * right. exists data. split; [discriminate | reflexivity].
      * left. eexists. split; [reflexivity | discriminate].
      * right. exists data. split; [discriminate | reflexivity].
    + left. destruct (fetch_handled e); eexists; split; try reflexivity; discriminate.
  - left. destruct (fetch_handled e); eexists; split; try reflexivity; discriminate.
Qed.

Lemma requests_get_json_raises (E : Env) (p : params) (e : exn) :
  requests_get_json E p = Raise e -> e = RequestException.
Proof.
  unfold requests_get_json.
  destruct (requests_get E p) as [|status body]; [congruence|].
  destruct ((400 <=? status) && (status <? 600))%Z; [congruence|].
  destruct body; congruence.
Qed.

(** X1.  A payload that is not a JSON object never gives an artifact,
    and nothing is written for it.  A null, a boolean or a number cannot
    be searched for "Information", and a list that has that text as an
    element, or a text that contains it, cannot be indexed with it: a
    TypeError leaves fetch_stock_data, which no except clause of the
    function names.  Any other list or text fails validation, and the
    function returns the no-artifact signal. *)
Theorem fetch_non_object_payload (L : Library) (E : Env) (symbol : string)
    (w : World) (data : json) :
  (forall p, p_symbol p = symbol -> requests_get_json E p = Ok data) ->
  (forall d, data <> JObj d) ->
  (py_contains "Information" data = Ok false ->
   fetch_stock_data L E symbol w = (Ok None, w)) /\
  (py_contains "Information" data <> Ok false ->
   fetch_stock_data L E symbol w = (Raise TypeError, w)).
Proof.
  intros Hget Hshape.
  unfold fetch_stock_data, bind.
  destruct (output_size_returns symbol w) as [mode ->].
  unfold try_except, bind, lift. rewrite Hget by reflexivity.
  destruct data as [| b | n | x | s | items | d]; simpl;
    try (split; [discriminate | reflexivity]).
  - destruct (substringb "Information" s); simpl;
      (split; [intros; try discriminate; reflexivity |
               intros Hnot; try reflexivity; exfalso; apply Hnot; reflexivity]).
  - destruct (existsb _ items); simpl;
      (split; [intros; try discriminate; reflexivity |
               intros Hnot; try reflexivity; exfalso; apply Hnot; reflexivity]).
  - exfalso. apply (Hshape d). reflexivity.
Qed.

Lemma fetch_non_object_payload_witness :
  let E := sample_env (Some "demo")
             (fun _ => HttpResponse 200 (Some (JArr [JStr "Information"]))) in
  ((forall p, p_symbol p = "AAPL" ->
              requests_get_json E p = Ok (JArr [JStr "Information"])) /\
   (forall d, JArr [JStr "Information"] <> JObj d)) /\
  (py_contains "Information" (JArr [JStr "Information"]) = Ok false ->
   fetch_stock_data sample_library E "AAPL" fresh = (Ok None, fresh)) /\
  (py_contains "Information" (JArr [JStr "Information"]) <> Ok false ->
   fetch_stock_data sample_library E "AAPL" fresh = (Raise TypeError, fresh)).
Proof.
  intros E.
  assert (Hget : forall p, p_symbol p = "AAPL" ->
            requests_get_json E p = Ok (JArr [JStr "Information"]))
    by (intros p _; reflexivity).
  assert (Hshape : forall d, JArr [JStr "Information"] <> JObj d)
    by (intros d; discriminate).
  split; [split; [exact Hget | exact Hshape]|].
  exact (fetch_non_object_payload sample_library E "AAPL" fresh
           (JArr [JStr "Information"]) Hget Hshape).
Defined.

(** X2.  A payload without the key "Information" that the pydantic model
    rejects (no time-series field, a day without one of the five fields,
    a field of the wrong type) gives the no-artifact signal: nothing is
    written, and the symbol is skipped without an exception. *)
Theorem fetch_rejects_invalid_payload (L : Library) (E : Env) (symbol : string)
    (w : World) (data : json) :
  (forall p, p_symbol p = symbol -> requests_get_json E p = Ok data) ->
  py_contains "Information" data = Ok false ->
  TimeSeriesData L data = false ->
  fetch_stock_data L E symbol w = (Ok None, w) /\
  process_symbol L E symbol w = (Ok tt, w).
Proof.
  intros Hget Hinfo Hbad.
  assert (Hf : fetch_stock_data L E symbol w = (Ok None, w)).
  { unfold fetch_stock_data, bind.
    destruct (output_size_returns symbol w) as [mode ->].
    unfold try_except, bind, lift. rewrite Hget by reflexivity.
    rewrite Hinfo. unfold ret, model_validate. rewrite Hbad. reflexivity. }
  split; [exact Hf | apply process_symbol_skips, Hf].
Qed.

Lemma fetch_rejects_invalid_payload_witness :
  let data := JObj [("Error Message", JStr "Invalid API call.")] in
  let E := sample_env (Some "demo") (fun _ => HttpResponse 200 (Some data)) in
  ((forall p, p_symbol p = "AAPL" -> requests_get_json E p = Ok data) /\
   py_contains "Information" data = Ok false /\
   TimeSeriesData sample_library data = false) /\
  fetch_stock_data sample_library E "AAPL" fresh = (Ok None, fresh) /\
  process_symbol sample_library E "AAPL" fresh = (Ok tt, fresh).
Proof.
  intros data E.
  assert (Hget : forall p, p_symbol p = "AAPL" -> requests_get_json E p = Ok data)
    by (intros p _; reflexivity).
  split; [split; [exact Hget | split; reflexivity]|].
  exact (fetch_rejects_invalid_payload sample_library E "AAPL" fresh data Hget
           eq_refl eq_refl).
Defined.

Lemma fetch_stock_data_valid (L : Library) (E : Env) (symbol : string)
    (w : World) (data : json) :
  (forall p, p_symbol p = symbol -> requests_get_json E p = Ok data) ->
  py_contains "Information" data = Ok false ->
  TimeSeriesData L data = true ->
  raw_data w !! snapshot_name E symbol <> Some Unreadable ->
  fetch_stock_data L E symbol w =
    (Ok (Some (snapshot_name E symbol)),
     {| raw_data := <[snapshot_name E symbol := Snapshot data]> (raw_data w);
        stock_daily_data := stock_daily_data w |}).
Proof.
  intros Hget Hinfo Hok Hfile.
  unfold fetch_stock_data, bind.
  destruct (output_size_returns symbol w) as [mode ->].
  unfold try_except, bind, lift. rewrite Hget by reflexivity.
  rewrite Hinfo. unfold ret, model_validate. rewrite Hok.
  unfold json_dump. fold (snapshot_name E symbol).
  destruct (raw_data w !! snapshot_name E symbol) as [[]|]; try reflexivity.
  contradiction.
Qed.

(** X3.  Whenever fetch_stock_data returns the name of an artifact, the
    name is {symbol}_{today}.json and the artifact is the payload the
    server sent for the request: a payload without the key "Information"
    that the pydantic model accepts, saved as it is.  Nothing else has
    changed, in raw_data/ or in the store, and what the transform then
    loads from that name is the payload itself. *)
Theorem fetch_saves_payload (L : Library) (E : Env) (symbol file_path : string)
    (w w' : World) :
  fetch_stock_data L E symbol w = (Ok (Some file_path), w') ->
  file_path = snapshot_name E symbol /\
  exists mode data,
    output_size symbol w = (Ok mode, w) /\
    requests_get_json E (fetch_params E symbol mode) = Ok data /\
    py_contains "Information" data = Ok false /\
    TimeSeriesData L data = true /\
    w' = {| raw_data := <[file_path := Snapshot data]> (raw_data w);
            stock_daily_data := stock_daily_data w |} /\
    json_load file_path w' = (Ok data, w').
Proof.
  unfold fetch_stock_data, bind.
  destruct (output_size_returns symbol w) as [mode Hsize]. rewrite Hsize.
  unfold try_except, bind, lift, ret, raise.
  destruct (requests_get_json E (fetch_params E symbol mode)) as [data|e] eqn:Hget;
    simpl.
  2:{ destruct (fetch_handled e); discriminate. }
  destruct (py_contains "Information" data) as [[|]|e] eqn:Hinfo; simpl.
  - destruct (py_getitem data "Information") as [info|e]; simpl;
      [discriminate | destruct (fetch_handled e); discriminate].
  - unfold model_validate.
    destruct (TimeSeriesData L data) eqn:Hvalid; simpl; [|discriminate].
    unfold json_dump. fold (snapshot_name E symbol).
    assert (Hread : forall files store,
              json_load (snapshot_name E symbol)
                {| raw_data := <[snapshot_name E symbol := Snapshot data]> files;
                   stock_daily_data := store |} =
              (Ok data,
               {| raw_data := <[snapshot_name E symbol := Snapshot data]> files;
                  stock_daily_data := store |})).
    { intros files store. unfold json_load. cbn [raw_data].
      rewrite lookup_insert_eq. reflexivity. }
    destruct (raw_data w !! snapshot_name E symbol) as [[]|]; simpl;
      try discriminate;
      intros [= <- <-]; (split; [reflexivity|]); exists mode, data;
      repeat (split; [reflexivity || assumption|]); apply Hread.
  - destruct (fetch_handled e); discriminate.
Qed.

Lemma fetch_saves_payload_witness :
  let E := sample_env (Some "demo") server_ok in
  let w' := {| raw_data := <[snapshot_name E "AAPL" := Snapshot payload_ok]> ∅;
               stock_daily_data := None |} in
  fetch_stock_data sample_library E "AAPL" fresh =
    (Ok (Some "AAPL_2024-03-06.json"), w') /\
  "AAPL_2024-03-06.json" = snapshot_name E "AAPL" /\
  exists mode data,
    output_size "AAPL" fresh = (Ok mode, fresh) /\
    requests_get_json E (fetch_params E "AAPL" mode) = Ok data /\
    py_contains "Information" data = Ok false /\
    TimeSeriesData sample_library data = true /\
    w' = {| raw_data := <["AAPL_2024-03-06.json" := Snapshot data]> (raw_data fresh);
            stock_daily_data := stock_daily_data fresh |} /\
    json_load "AAPL_2024-03-06.json" w' = (Ok data, w').
Proof.
  intros E w'.
  assert (Hrun : fetch_stock_data sample_library E "AAPL" fresh =
                   (Ok (Some "AAPL_2024-03-06.json"), w'))
    by (vm_compute; reflexivity).
  split; [exact Hrun|].
  exact (fetch_saves_payload sample_library E "AAPL" "AAPL_2024-03-06.json"
           fresh w' Hrun).
Defined.


(** ** The snapshot directory only gains names *)

Lemma no_file_lost_refl (w : World) : no_file_lost w w.
Proof. intros name H. exact H. Qed.

Lemma no_file_lost_trans (w1 w2 w3 : World) :
  no_file_lost w1 w2 -> no_file_lost w2 w3 -> no_file_lost w1 w3.
Proof. intros H12 H23 name H. apply H23, H12, H. Qed.

Lemma files_kept_refl (names : list string) (w : World) : files_kept names w w.
Proof. split; [apply no_file_lost_refl | reflexivity]. Qed.

Lemma files_kept_trans (names : list string) (w1 w2 w3 : World) :
  files_kept names w1 w2 -> files_kept names w2 w3 -> files_kept names w1 w3.
Proof.
  intros [L12 K12] [L23 K23]. split.
  - eapply no_file_lost_trans; eassumption.
  - intros name Hout. rewrite K23, K12; auto.
Qed.

Lemma files_kept_same_files (names : list string) (w w' : World) :
  raw_data w' = raw_data w -> files_kept names w w'.
Proof.
  intros Heq. unfold files_kept, no_file_lost. rewrite Heq. auto.
Qed.

Lemma files_kept_insert (names : list string) (file_path : string) (f : file)
    (w : World) :
  In file_path names ->
  files_kept names w
    {| raw_data := <[file_path := f]> (raw_data w);
       stock_daily_data := stock_daily_data w |}.
Proof.
  intros Hin. split; [unfold no_file_lost|]; cbn [raw_data].
  - intros name [f0 Hf0]. destruct (decide (name = file_path)) as [->|Hne].
    + rewrite lookup_insert_eq. eauto.
    + rewrite lookup_insert_ne by congruence. eauto.
  - intros name Hout. apply lookup_insert_ne. congruence.
Qed.

Lemma files_kept_json_dump (names : list string) (file_path : string) (data : json) :
  In file_path names -> respects (files_kept names) (json_dump file_path data).
Proof.
  intros Hin w. unfold json_dump.
  destruct (raw_data w !! file_path) as [[]|]; simpl;
    solve [apply files_kept_refl | apply files_kept_insert, Hin].
Qed.

Lemma files_kept_setup_database (names : list string) :
  respects (files_kept names) setup_database.
Proof. intros w. apply files_kept_same_files. reflexivity. Qed.

Lemma files_kept_load_data_to_db (names : list string) (df : list DataFrame.row) :
  respects (files_kept names) (load_data_to_db df).
Proof.
  intros w. apply files_kept_same_files.
  destruct df as [|r df]; [reflexivity|]. rewrite load_data_to_db_rows.
  destruct (stock_daily_data w); [|reflexivity].
  destruct (traverse bind_parameters (r :: df)); reflexivity.
Qed.

(** X4.  A run of the pipeline deletes no file of raw_data/, and the
    only names it writes are today's snapshots of the configured
    symbols: every other name, the snapshots of earlier days among them,
    keeps its content, however the run ends. *)
Theorem run_keeps_earlier_snapshots (L : Library) (E : Env) (w : World) :
  let w' := (run_etl_pipeline L E w).2 in
  (forall name, is_Some (raw_data w !! name) -> is_Some (raw_data w' !! name)) /\
  (forall name, ~ In name (map (snapshot_name E) SYMBOLS) ->
     raw_data w' !! name = raw_data w !! name).
Proof.
  apply (respects_run_etl_pipeline (files_kept (map (snapshot_name E) SYMBOLS))
           (files_kept_refl _) (files_kept_trans _) L E).
  - apply files_kept_setup_database.
  - intros symbol data Hin. apply files_kept_json_dump, in_map, Hin.
  - apply files_kept_load_data_to_db.
Qed.






(** ** Transform: what it reads and what it returns *)

(** Case analysis on a scrutinee that is not itself a case analysis. *)
Ltac destruct_innermost :=
  match goal with
  | |- context [match ?x with _ => _ end] =>
      lazymatch x with
      | context [match _ with _ => _ end] => fail
      | _ => destruct x; cbn [fst snd]
      end
  end.

Lemma transform_data_world (L : Library) (E : Env) (file_path symbol : string)
    (w : World) :
  (transform_data L E file_path symbol w).2 = w.
Proof.
  unfold transform_data, try_except, bind, lift, json_load, ret.
  repeat destruct_innermost; reflexivity.
Qed.

Lemma transform_data_file (L : Library) (E : Env) (file_path symbol : string)
    (w w' : World) :
  raw_data w !! file_path = raw_data w' !! file_path ->
  (transform_data L E file_path symbol w).1 =
  (transform_data L E file_path symbol w').1.
Proof.
  intros Hfile.
  unfold transform_data, try_except, bind, lift, json_load, ret.
  rewrite Hfile.
  repeat destruct_innermost; reflexivity.
Qed.

(** X6.  transform_data writes nothing: whatever its outcome, files and
    store are as before; and its outcome is decided by the one file it
    is given, so two worlds that agree on that file give the same rows
    or the same exception. *)
Theorem transform_reads_one_file (L : Library) (E : Env) (file_path symbol : string)
    (w w' : World) :
  raw_data w !! file_path = raw_data w' !! file_path ->
  (transform_data L E file_path symbol w).2 = w /\
  (transform_data L E file_path symbol w').2 = w' /\
  (transform_data L E file_path symbol w).1 =
  (transform_data L E file_path symbol w').1.
Proof.
  intros Hfile. split; [apply transform_data_world|].
  split; [apply transform_data_world | apply transform_data_file, Hfile].
Qed.

Lemma transform_reads_one_file_witness :
  let E := sample_env (Some "demo") server_ok in
  let w := with_snapshot "AAPL_2024-03-06.json" payload_ok in
  let w' := {| raw_data := <["GOOG_2024-03-06.json" := Garbled]> (raw_data w);
               stock_daily_data := None |} in
  raw_data w !! "AAPL_2024-03-06.json" = raw_data w' !! "AAPL_2024-03-06.json" /\
  (transform_data sample_library E "AAPL_2024-03-06.json" "AAPL" w).2 = w /\
  (transform_data sample_library E "AAPL_2024-03-06.json" "AAPL" w').2 = w' /\
  (transform_data sample_library E "AAPL_2024-03-06.json" "AAPL" w).1 =
  (transform_data sample_library E "AAPL_2024-03-06.json" "AAPL" w').1.
Proof.
  intros E w w'.
  assert (Hfile : raw_data w !! "AAPL_2024-03-06.json" =
                  raw_data w' !! "AAPL_2024-03-06.json") by reflexivity.
  split; [exact Hfile|].
  exact (transform_reads_one_file sample_library E "AAPL_2024-03-06.json" "AAPL"
           w w' Hfile).
Defined.

Lemma py_getitem_raises (data : json) (k : string) (e : exn) :
  py_getitem data k = Raise e -> e = KeyError \/ e = TypeError.
Proof.
  unfold py_getitem. destruct data as [| | | | | |d]; try (intros [= <-]; auto).
  destruct (dict_get k d); [discriminate | intros [= <-]; auto].
Qed.

(** X7.  The transform returns the empty row-set, and raises nothing,
    when the file is missing, when the snapshot is no dict or has no
    'Time Series (Daily)' key, and when the series under that key is an
    empty dict. *)
Theorem transform_returns_empty (L : Library) (E : Env) (file_path symbol : string)
    (w : World) :
  raw_data w !! file_path = None \/
  (exists data,
     raw_data w !! file_path = Some (Snapshot data) /\
     ((exists e, py_getitem data "Time Series (Daily)" = Raise e) \/
      py_getitem data "Time Series (Daily)" = Ok (JObj []))) ->
  transform_data L E file_path symbol w = (Ok [], w).
Proof.
  intros [Hnone | (data & Hfile & [[e He] | Hempty])];
    unfold transform_data, try_except, bind, lift, json_load.
  - rewrite Hnone. reflexivity.
  - rewrite Hfile, He.
    destruct (py_getitem_raises _ _ _ He) as [-> | ->]; reflexivity.
  - rewrite Hfile, Hempty. reflexivity.
Qed.

Lemma transform_returns_empty_witness :
  let E := sample_env (Some "demo") server_ok in
  let data := JObj [("Time Series (Daily)", JObj [])] in
  let w := with_snapshot "AAPL_2024-03-06.json" data in
  (raw_data w !! "AAPL_2024-03-06.json" = None \/
   (exists data0,
      raw_data w !! "AAPL_2024-03-06.json" = Some (Snapshot data0) /\
      ((exists e, py_getitem data0 "Time Series (Daily)" = Raise e) \/
       py_getitem data0 "Time Series (Daily)" = Ok (JObj [])))) /\
  transform_data sample_library E "AAPL_2024-03-06.json" "AAPL" w = (Ok [], w).
Proof.
  intros E data w.
  assert (H : raw_data w !! "AAPL_2024-03-06.json" = None \/
    (exists data0,
       raw_data w !! "AAPL_2024-03-06.json" = Some (Snapshot data0) /\
       ((exists e, py_getitem data0 "Time Series (Daily)" = Raise e) \/
        py_getitem data0 "Time Series (Daily)" = Ok (JObj [])))).
  { right. exists data. split; [reflexivity | right; reflexivity]. }
  split; [exact H|].
  exact (transform_returns_empty sample_library E "AAPL_2024-03-06.json" "AAPL" w H).
Defined.


(** ** Transform: a price that is no number *)

Lemma traverse_raises {A B} (f : A -> result B) (xs : list A) (e : exn) :
  (forall x, In x xs -> (exists y, f x = Ok y) \/ f x = Raise e) ->
  (exists x, In x xs /\ f x = Raise e) ->
  traverse f xs = Raise e.
Proof.
  induction xs as [|a xs IH]; intros Hall (x & Hin & Hx); [contradiction|].
  simpl. destruct (Hall a (or_introl eq_refl)) as [[y Hy] | Hr].
  - rewrite Hy. simpl. destruct Hin as [-> | Hin]; [congruence|].
    rewrite IH; [reflexivity | intros x' Hx'; apply Hall; now right | eauto].
  - rewrite Hr. reflexivity.
Qed.

Lemma traverse_total {A B} (f : A -> result B) (g : A -> B) (xs : list A) :
  (forall x, In x xs -> f x = Ok (g x)) -> traverse f xs = Ok (map g xs).
Proof.
  induction xs as [|a xs IH]; intros Hall; simpl; [reflexivity|].
  rewrite (Hall a (or_introl eq_refl)). simpl.
  rewrite IH by (intros x Hx; apply Hall; now right). reflexivity.
Qed.

Lemma traverse_map {A B C} (f : B -> result C) (g : A -> B) (xs : list A) :
  traverse f (map g xs) = traverse (fun x => f (g x)) xs.
Proof.
  induction xs as [|a xs IH]; simpl; [reflexivity | now rewrite IH].
Qed.

Lemma filter_renamed_none (cols : list string) (alias col : string) :
  (forall k, rename_column k = col -> k = alias \/ k = col) ->
  ~ In alias cols -> ~ In col cols ->
  List.filter (String.eqb col) (map rename_column cols) = [].
Proof.
  intros Honly. induction cols as [|k cols IH]; simpl; intros Ha Hc; [reflexivity|].
  destruct (String.eqb_spec col (rename_column k)) as [Heq|_]; [|apply IH; tauto].
  destruct (Honly k (eq_sym Heq)); tauto.
Qed.

Lemma filter_renamed_one (cols : list string) (alias col : string) :
  (forall k, rename_column k = col -> k = alias \/ k = col) ->
  rename_column alias = col ->
  List.NoDup cols -> In alias cols -> ~ In col cols ->
  List.filter (String.eqb col) (map rename_column cols) = [col].
Proof.
  intros Honly Halias.
  induction cols as [|k cols IH]; simpl; intros Hnd Ha Hc; [contradiction|].
  apply List.NoDup_cons_iff in Hnd. destruct Hnd as [Hk Hnd].
  destruct (String.eqb_spec col (rename_column k)) as [Heq|Hneq].
  - destruct (Honly k (eq_sym Heq)) as [-> | ->]; [|tauto].
    rewrite <- Heq, (filter_renamed_none cols alias col Honly); tauto.
  - destruct Ha as [-> | Ha]; [congruence|]. apply IH; tauto.
Qed.

(** The frame of a series all of whose days are dicts. *)
Lemma from_dict_of_dicts (days : list (string * json)) :
  days <> [] ->
  (forall kv, In kv days -> exists cells, kv.2 = JObj cells) ->
  let rs := map (fun kv => (kv.1, match kv.2 with JObj c => c | _ => [] end)) days in
  from_dict (JObj days) =
  Ok (mkFrame (remove_dups (concat (map (fun r => map fst r.2) rs))) rs).
Proof.
  intros Hne Hall rs.
  assert (Hfd : from_dict (JObj days) =
            rbind (traverse (fun kv => rbind (as_dict kv.2) (fun d => Ok (kv.1, d))) days)
              (fun rs => Ok (mkFrame
                 (remove_dups (concat (map (fun r => map fst r.2) rs))) rs))).
  { destruct days as [|[k v] days]; [contradiction|].
    destruct (Hall (k, v) (or_introl eq_refl)) as [cells Hv]. simpl in Hv.
    subst v. reflexivity. }
  rewrite Hfd.
  rewrite (traverse_total _
             (fun kv => (kv.1, match kv.2 with JObj c => c | _ => [] end))).
  - reflexivity.
  - intros kv Hin. destruct (Hall kv Hin) as [cells Hv]. rewrite Hv. reflexivity.
Qed.

(** X8.  A price that pandas cannot read is not coerced.  When every day
    of the snapshot has an open cell and one of them holds text that is
    no number, pd.to_numeric raises ValueError, the except clause does
    not name it, and the transform raises to its caller. *)
Theorem transform_raises_on_bad_price (L : Library) (E : Env)
    (file_path symbol : string) (w : World) (data : json)
    (days : list (string * json)) :
  raw_data w !! file_path = Some (Snapshot data) ->
  py_getitem data "Time Series (Daily)" = Ok (JObj days) ->
  (forall kv, In kv days ->
     exists cells x,
       kv.2 = JObj cells /\ dict_get "1. open" cells = Some x /\
       ~ In "open" (map fst cells) /\
       ((exists y, to_numeric L x = Ok y) \/ to_numeric L x = Raise ValueError)) ->
  (exists kv cells x,
     In kv days /\ kv.2 = JObj cells /\ dict_get "1. open" cells = Some x /\
     to_numeric L x = Raise ValueError) ->
  transform_data L E file_path symbol w = (Raise ValueError, w).
Proof.
  intros Hfile Hseries Hall (kv0 & cells0 & x0 & Hin0 & Hkv0 & Hx0 & Hbad).
  assert (Hne : days <> []) by (intros ->; contradiction).
  assert (Hdicts : forall kv, In kv days -> exists cells, kv.2 = JObj cells).
  { intros kv Hin. destruct (Hall kv Hin) as (cells & _ & Hkv & _). eauto. }
  pose proof (from_dict_of_dicts days Hne Hdicts) as Hfd. cbv zeta in Hfd.
  set (cells_of := fun kv : string * json =>
         (kv.1, match kv.2 with JObj c => c | _ => [] end)) in Hfd.
  set (cols := remove_dups (concat (map (fun r => map fst r.2) (map cells_of days))))
    in Hfd.
  assert (Hkeys : forall k, In k cols <->
            exists kv, In kv days /\ In k (map fst (cells_of kv).2)).
  { intros k. unfold cols.
    rewrite <- list_elem_of_In, elem_of_remove_dups, list_elem_of_In, in_concat.
    split.
    - intros (l & Hl & Hk). apply in_map_iff in Hl. destruct Hl as (r & <- & Hr).
      apply in_map_iff in Hr. destruct Hr as (kv & <- & Hkv). eauto.
    - intros (kv & Hkv & Hk). exists (map fst (cells_of kv).2). split; [|exact Hk].
      apply in_map_iff. exists (cells_of kv). split; [reflexivity|].
      apply in_map, Hkv. }
  assert (Hone : List.filter (String.eqb "open") (map rename_column cols) = ["open"]).
  { apply (filter_renamed_one cols "1. open" "open").
    - intros k. apply rename_column_only. simpl. tauto.
    - reflexivity.
    - apply NoDup_ListNoDup, NoDup_remove_dups.
    - apply Hkeys. exists kv0. split; [exact Hin0|].
      unfold cells_of. rewrite Hkv0. simpl. eapply dict_get_In, Hx0.
    - intros Hopen. apply Hkeys in Hopen. destruct Hopen as (kv & Hkv & Hk).
      destruct (Hall kv Hkv) as (cells & x & Hc & _ & Hno & _).
      unfold cells_of in Hk. rewrite Hc in Hk. simpl in Hk. contradiction. }
  assert (Hcol : to_numeric_column L (rename (mkFrame cols (map cells_of days))) "open"
                 = Raise ValueError).
  { unfold to_numeric_column, getitem_column, rename. cbn [columns rows].
    rewrite Hone. cbn [rbind]. rewrite !traverse_map.
    apply traverse_raises.
    - intros kv Hkv. destruct (Hall kv Hkv) as (cells & x & Hc & Hx & Hno & Hconv).
      unfold cells_of. rewrite Hc. cbn [fst snd].
      rewrite (dict_get_renamed cells "1. open" "open" eq_refl
                 (fun k => rename_column_only "1. open" "open" k
                             ltac:(simpl; tauto)) Hno), Hx.
      exact Hconv.
    - exists kv0. split; [exact Hin0|].
      destruct (Hall kv0 Hin0) as (cells & x & Hc & Hx & Hno & _).
      unfold cells_of. rewrite Hc. cbn [fst snd].
      rewrite (dict_get_renamed cells "1. open" "open" eq_refl
                 (fun k => rename_column_only "1. open" "open" k
                             ltac:(simpl; tauto)) Hno).
      rewrite Hkv0 in Hc. injection Hc as <-. rewrite Hx0. exact Hbad. }
  unfold transform_data, try_except, bind, lift, json_load.
  rewrite Hfile, Hseries, Hfd, Hcol. reflexivity.
Qed.

Lemma transform_raises_on_bad_price_witness :
  let E := sample_env (Some "demo") server_ok in
  let days := [("2024-03-05", bar "100.0000" "106.5000" "99.2500" "105.0000" "1200");
               ("2024-03-04", bar "n/a" "154.0000" "149.0000" "153.0000" "900")] in
  let data := JObj [("Time Series (Daily)", JObj days)] in
  let w := with_snapshot "AAPL_2024-03-06.json" data in
  to_numeric sample_library (JStr "n/a") = Raise ValueError /\
  transform_data sample_library E "AAPL_2024-03-06.json" "AAPL" w =
    (Raise ValueError, w).
Proof.
  intros E days data w. split; [reflexivity|].
  apply (transform_raises_on_bad_price sample_library E "AAPL_2024-03-06.json" "AAPL"
           w data days eq_refl eq_refl).
  - intros kv [<- | [<- | []]]; eexists _, _;
      (split; [reflexivity|]); (split; [reflexivity|]); split.
    + simpl. intuition discriminate.
    + left. eexists. reflexivity.
    + simpl. intuition discriminate.
    + right. reflexivity.
  - eexists _, _, _. split; [right; left; reflexivity|].
    split; [reflexivity|]. split; reflexivity.
Defined.


(** ** Transform: one row per day, in the order of the days *)

Lemma Forall2_compose {A B C} (P : A -> B -> Prop) (Q : B -> C -> Prop)
    (R : A -> C -> Prop) (l : list A) (k : list B) (m : list C) :
  (forall x y z, P x y -> Q y z -> R x z) ->
  Forall2 P l k -> Forall2 Q k m -> Forall2 R l m.
Proof.
  intros Hstep Hlk. revert m.
  induction Hlk; intros m Hkm; inversion Hkm; subst; constructor; eauto.
Qed.

Lemma Forall2_map_l {A B C} (P : B -> C -> Prop) (f : A -> B) (l : list A)
    (k : list C) :
  Forall2 P (map f l) k -> Forall2 (fun x y => P (f x) y) l k.
Proof.
  revert k. induction l as [|x l IH]; intros k H; inversion H; subst;
    constructor; auto.
Qed.

Lemma assemble_Forall2 (E : Env) (symbol : string) :
  forall (dates : list string) (opens highs lows closes : list float)
         (volumes : list (option Z)),
  length opens = length dates -> length highs = length dates ->
  length lows = length dates -> length closes = length dates ->
  length volumes = length dates ->
  Forall2 (fun d r => DataFrame.date r = d /\ DataFrame.symbol r = symbol /\
                      DataFrame.extraction_timestamp r = now E)
          dates (assemble E symbol dates opens highs lows closes volumes).
Proof.
  induction dates as [|d dates IH];
    intros [|o opens] [|h highs] [|l lows] [|c closes] [|v volumes];
    simpl; intros Ho Hh Hl Hc Hv; try discriminate; constructor; auto.
Qed.

(** X9.  For a series whose days all have the same cells, none of them
    named index or date, a transform that returns rows returns one row
    per day, in the order of the days: the row at a day's position has
    that day's date, the symbol the function was called with, and the
    one timestamp shared by all rows of the call. *)
Theorem transform_rows_follow_days (L : Library) (E : Env)
    (file_path symbol : string) (w w' : World) (out : list DataFrame.row)
    (data : json) (days : list (string * json)) :
  transform_data L E file_path symbol w = (Ok out, w') ->
  out <> [] ->
  raw_data w !! file_path = Some (Snapshot data) ->
  py_getitem data "Time Series (Daily)" = Ok (JObj days) ->
  regular_series days ->
  length out = length days /\
  Forall2 (fun kv r =>
             to_datetime_date L kv.1 = Ok (DataFrame.date r) /\
             DataFrame.symbol r = symbol /\
             DataFrame.extraction_timestamp r = now E)
          days out.
Proof.
  intros Hrun Hne Hfile Hseries _.
  destruct (transform_data_inv _ _ _ _ _ _ _ Hrun Hne)
    as (_ & data' & series & df0 & opens & highs & lows & closes & volumes & dates
        & Hfile' & Hseries' & Hfd & Ho & Hh & Hl & Hc & Hv & Hd & ->).
  rewrite Hfile in Hfile'. injection Hfile' as <-.
  rewrite Hseries in Hseries'. injection Hseries' as <-.
  assert (Hlen : forall {A} (f : option json -> result A) col (values : list A),
            rbind (getitem_column (rename df0) col) (traverse f) = Ok values ->
            length values = length (rows df0) /\ columns df0 <> []).
  { intros A f col values Hconv.
    destruct (getitem_column (rename df0) col) as [cs|] eqn:Hget; [|discriminate].
    apply getitem_column_inv in Hget. destruct Hget as [-> [c Hone]].
    apply traverse_Forall2, Forall2_length in Hconv.
    unfold rename in Hconv, Hone. cbn [rows columns] in Hconv, Hone.
    rewrite !length_map in Hconv. split; [congruence|].
    intros Hnil. rewrite Hnil in Hone. discriminate. }
  unfold to_numeric_column in Ho, Hh, Hl, Hc.
  destruct (Hlen _ _ _ _ Ho) as [Hlo Hcols].
  destruct (Hlen _ _ _ _ Hh) as [Hlh _].
  destruct (Hlen _ _ _ _ Hl) as [Hll _].
  destruct (Hlen _ _ _ _ Hc) as [Hlc _].
  destruct (Hlen _ _ _ _ Hv) as [Hlv _].
  destruct (from_dict_inv _ _ Hfd Hcols) as (days0 & [= <-] & Hrows & _).
  apply traverse_Forall2 in Hd.
  assert (Hdates : Forall2 (fun kv d => to_datetime_date L kv.1 = Ok d) days dates).
  { unfold rename in Hd. cbn [rows] in Hd.
    apply Forall2_map_l, Forall2_map_l in Hd.
    eapply Forall2_compose; [|exact Hrows|exact Hd].
    intros kv r d [_ Hk] Hr. simpl in Hr. rewrite <- Hk. exact Hr. }
  assert (Hld : length dates = length (rows df0)).
  { apply Forall2_length in Hdates. apply Forall2_length in Hrows. congruence. }
  pose proof (assemble_Forall2 E symbol dates opens highs lows closes volumes
                ltac:(congruence) ltac:(congruence) ltac:(congruence)
                ltac:(congruence) ltac:(congruence)) as Hout.
  split.
  - apply Forall2_length in Hout. apply Forall2_length in Hdates. congruence.
  - eapply Forall2_compose; [|exact Hdates|exact Hout].
    intros kv d r Hkv (<- & Hs & Ht). auto.
Qed.

Lemma transform_rows_follow_days_witness :
  let E := sample_env (Some "demo") server_ok in
  let file_path := "AAPL_2024-03-06.json" in
  let w := with_snapshot file_path payload_ok in
  let out := rows_of (transform_data sample_library E file_path "AAPL" w) in
  let days := [("2024-03-05", bar "100.0000" "106.5000" "99.2500" "105.0000" "1200");
               ("2024-03-04", bar "150.0000" "154.0000" "149.0000" "153.0000" "900")] in
  (transform_data sample_library E file_path "AAPL" w = (Ok out, w) /\
   map DataFrame.date out = ["2024-03-05"; "2024-03-04"] /\
   regular_series days) /\
  length out = length days /\
  Forall2 (fun kv r =>
             to_datetime_date sample_library kv.1 = Ok (DataFrame.date r) /\
             DataFrame.symbol r = "AAPL" /\
             DataFrame.extraction_timestamp r = now E)
          days out.
Proof.
  intros E file_path w out days.
  assert (Hrun : transform_data sample_library E file_path "AAPL" w = (Ok out, w))
    by (vm_compute; reflexivity).
  assert (Hne : out <> []) by (vm_compute; discriminate).
  assert (Hregular : regular_series days).
  { split.
    - intros d cells [[= <- <-] | [[= <- <-] | []]]; split; reflexivity.
    - exists ["1. open"; "2. high"; "3. low"; "4. close"; "5. volume"].
      split; [discriminate|].
      intros kv [<- | [<- | []]]; eexists; split; reflexivity. }
  split; [split; [exact Hrun | split; [vm_compute; reflexivity | exact Hregular]]|].
  exact (transform_rows_follow_days sample_library E file_path "AAPL" w w out
           payload_ok days Hrun Hne eq_refl eq_refl Hregular).
Defined.


(** ** Load: which records a load adds *)

(** The records a statement adds are records it was given, each with no
    NULL in a NOT NULL column and with a key that was not stored yet. *)
Lemma executemany_added (t records : list Table.record) :
  exists added,
    executemany t records = t ++ added /\
    Forall (fun r => In r records /\ not_null r = true /\ ~ In (key r) (map key t))
           added.
Proof.
  revert t. induction records as [|r records IH]; intros t; simpl.
  - exists []. split; [now rewrite app_nil_r | constructor].
  - destruct (IH (insert_or_ignore t r)) as (added & Heq & Hall).
    unfold executemany in *. rewrite Heq.
    destruct (insert_or_ignore_cases t r) as [(Hins & Hn & Hk) | (Hins & _)];
      rewrite Hins in *.
    + exists (r :: added). split; [now rewrite <- app_assoc|].
      constructor; [auto|].
      eapply Forall_impl; [exact Hall|]. intros r' (Hin & Hn' & Hk').
      repeat split; auto. intros Hkt. apply Hk'. rewrite map_app, in_app_iff. auto.
    + exists added. split; [reflexivity|].
      eapply Forall_impl; [exact Hall|]. intros r' (Hin & Hn' & Hk'). auto.
Qed.

Lemma executemany_keys (t records : list Table.record) (k : string * string) :
  In k (map key (executemany t records)) <->
  In k (map key t) \/ exists r, In r records /\ not_null r = true /\ key r = k.
Proof.
  split.
  - destruct (executemany_added t records) as (added & -> & Hall).
    rewrite map_app, in_app_iff. intros [Hk | Hk]; [now left | right].
    apply in_map_iff in Hk. destruct Hk as (r & <- & Hr).
    rewrite List.Forall_forall in Hall. destruct (Hall r Hr) as (Hin & Hn & _).
    eauto.
  - intros [Hk | (r & Hin & Hn & <-)].
    + apply executemany_keeps_keys, Hk.
    + destruct (executemany_settles t records r Hin) as [Hn' | Hk];
        [congruence | exact Hk].
Qed.

Lemma executemany_length (t records : list Table.record) :
  (length t <= length (executemany t records) <= length t + length records)%nat.
Proof.
  revert t. induction records as [|r records IH]; intros t; simpl; [lia|].
  specialize (IH (insert_or_ignore t r)). unfold executemany in IH.
  destruct (insert_or_ignore_cases t r) as [(Heq & _) | (Heq & _)];
    rewrite Heq in *; [rewrite length_app in IH; simpl in IH|];
    unfold executemany in *; lia.
Qed.

Lemma bind_parameters_record (r : DataFrame.row) (rec : Table.record) :
  bind_parameters r = Ok rec ->
  key rec = row_key r /\ not_null rec = storable r /\
  Table.symbol rec = DataFrame.symbol r /\
  Table.extraction_timestamp rec = DataFrame.extraction_timestamp r.
Proof.
  unfold bind_parameters. destruct (DataFrame.volume r) as [v|]; [|discriminate].
  intros [= <-]. unfold key, row_key, not_null, storable, bind_float. simpl.
  repeat split.
  destruct (is_nan (DataFrame.open r)), (is_nan (DataFrame.high r)),
    (is_nan (DataFrame.low r)), (is_nan (DataFrame.close r)); reflexivity.
Qed.

(** X10.  setup_database can be called again at no cost: a second call
    changes nothing, no call touches a file or a stored record, and after
    a call a load never fails for want of the table. *)
Theorem setup_database_is_idempotent (w : World) (df : list DataFrame.row) :
  let w1 := (setup_database w).2 in
  setup_database w1 = (Ok tt, w1) /\
  raw_data w1 = raw_data w /\
  table w1 = table w /\
  (load_data_to_db df w1).1 <> Raise OperationalError.
Proof.
  assert (Hload : forall t, (load_data_to_db df
            {| raw_data := raw_data w; stock_daily_data := Some t |}).1
            <> Raise OperationalError).
  { intros t. destruct df as [|r df]; [discriminate|].
    rewrite load_data_to_db_rows. cbn [stock_daily_data].
    destruct (traverse bind_parameters (r :: df)) as [records|e] eqn:Hb;
      [discriminate|].
    cbn [fst]. intros [= ->]. revert Hb.
    generalize (r :: df). intros rows0.
    induction rows0 as [|r0 rows0 IH]; simpl; [discriminate|].
    unfold bind_parameters at 1.
    destruct (DataFrame.volume r0); simpl; [|discriminate].
    destruct (traverse bind_parameters rows0); simpl; [discriminate | exact IH]. }
  unfold setup_database, table. cbn [snd raw_data stock_daily_data].
  destruct (stock_daily_data w) as [t|]; repeat split; apply Hload.
Qed.


Lemma load_data_to_db_inv (df : list DataFrame.row) (w w' : World) (n : nat) :
  load_data_to_db df w = (Ok (Some n), w') ->
  exists t records,
    stock_daily_data w = Some t /\
    Forall2 (fun r rec => bind_parameters r = Ok rec) df records /\
    w' = {| raw_data := raw_data w;
            stock_daily_data := Some (executemany t records) |} /\
    n = (length (executemany t records) - length t)%nat.
Proof.
  destruct df as [|r df]; [discriminate|]. rewrite load_data_to_db_rows.
  destruct (stock_daily_data w) as [t|]; [|discriminate].
  destruct (traverse bind_parameters (r :: df)) as [records|e] eqn:Hb;
    [|discriminate].
  intros [= <- <-]. exists t, records. repeat split.
  apply traverse_Forall2, Hb.
Qed.

(** X11.  A load that reports a count touches no file, has added exactly
    that many records, at most one per row, and afterwards the store
    holds a record for a (symbol, date) exactly when it held one before
    or the row-set has a row for it with no NaN price. *)
Theorem load_adds_the_new_keys (df : list DataFrame.row) (w w' : World) (n : nat) :
  load_data_to_db df w = (Ok (Some n), w') ->
  raw_data w' = raw_data w /\
  length (table w') = (length (table w) + n)%nat /\
  (n <= length df)%nat /\
  forall k,
    In k (map key (table w')) <->
    In k (map key (table w)) \/
    exists r, In r df /\ storable r = true /\ row_key r = k.
Proof.
  intros Hload.
  destruct (load_data_to_db_inv _ _ _ _ Hload) as (t & records & Ht & Hb & -> & ->).
  unfold table. cbn [raw_data stock_daily_data]. rewrite Ht.
  pose proof (executemany_length t records) as Hlen.
  pose proof (Forall2_length _ _ _ Hb) as Hdf.
  split; [reflexivity|]. split; [lia|]. split; [lia|].
  intros k. rewrite executemany_keys. split; (intros [Hk | Hk]; [now left | right]).
  - destruct Hk as (rec & Hin & Hn & <-).
    apply list_elem_of_In, list_elem_of_lookup in Hin. destruct Hin as [i Hi].
    destruct (Forall2_lookup_r _ _ _ _ _ Hb Hi) as (r & Hr & Hbind).
    destruct (bind_parameters_record _ _ Hbind) as (Hkey & Hnn & _).
    exists r. split; [apply list_elem_of_In, list_elem_of_lookup; eauto|].
    split; congruence.
  - destruct Hk as (r & Hin & Hs & <-).
    apply list_elem_of_In, list_elem_of_lookup in Hin. destruct Hin as [i Hi].
    destruct (Forall2_lookup_l _ _ _ _ _ Hb Hi) as (rec & Hrec & Hbind).
    destruct (bind_parameters_record _ _ Hbind) as (Hkey & Hnn & _).
    exists rec. split; [apply list_elem_of_In, list_elem_of_lookup; eauto|].
    split; congruence.
Qed.

Lemma load_adds_the_new_keys_witness :
  let E := sample_env (Some "demo") server_ok in
  let file_path := "AAPL_2024-03-06.json" in
  let w := with_snapshot file_path payload_ok in
  let df := rows_of (transform_data sample_library E file_path "AAPL" w) in
  let w' := (load_data_to_db df w).2 in
  load_data_to_db df w = (Ok (Some 2%nat), w') /\
  raw_data w' = raw_data w /\
  length (table w') = (length (table w) + 2)%nat /\
  (2 <= length df)%nat /\
  forall k,
    In k (map key (table w')) <->
    In k (map key (table w)) \/
    exists r, In r df /\ storable r = true /\ row_key r = k.
Proof.
  intros E file_path w df w'.
  assert (Hload : load_data_to_db df w = (Ok (Some 2%nat), w'))
    by (vm_compute; reflexivity).
  split; [exact Hload|].
  exact (load_adds_the_new_keys df w w' 2 Hload).
Defined.

(** ** What a run adds to the store *)

Lemma adds_only_refl (P : Table.record -> Prop) (w : World) : adds_only P w w.
Proof. exists []. split; [now rewrite app_nil_r | constructor]. Qed.

Lemma adds_only_trans (P : Table.record -> Prop) (w1 w2 w3 : World) :
  adds_only P w1 w2 -> adds_only P w2 w3 -> adds_only P w1 w3.
Proof.
  intros (a1 & H1 & P1) (a2 & H2 & P2). exists (a1 ++ a2). split.
  - now rewrite H2, H1, app_assoc.
  - apply Forall_app. auto.
Qed.

Lemma adds_only_same_table (P : Table.record -> Prop) (w w' : World) :
  table w' = table w -> adds_only P w w'.
Proof.
  intros Heq. exists []. split; [now rewrite app_nil_r | constructor].
Qed.

(** A load adds records bound from its rows. *)
Lemma adds_only_load_data_to_db (P : Table.record -> Prop) (df : list DataFrame.row) :
  (forall r rec, In r df -> bind_parameters r = Ok rec -> not_null rec = true ->
                 P rec) ->
  respects (adds_only P) (load_data_to_db df).
Proof.
  intros HP w. destruct df as [|r df]; [apply adds_only_refl|].
  rewrite load_data_to_db_rows.
  destruct (stock_daily_data w) as [t|] eqn:Ht; [|apply adds_only_refl].
  destruct (traverse bind_parameters (r :: df)) as [records|e] eqn:Hb;
    [|apply adds_only_refl].
  apply traverse_Forall2 in Hb.
  destruct (executemany_added t records) as (added & Heq & Hall).
  exists added. unfold table. cbn [snd stock_daily_data]. rewrite Ht.
  split; [exact Heq|].
  eapply Forall_impl; [exact Hall|]. intros rec (Hin & Hn & _).
  apply list_elem_of_In, list_elem_of_lookup in Hin. destruct Hin as [i Hi].
  destruct (Forall2_lookup_r _ _ _ _ _ Hb Hi) as (r0 & Hr0 & Hbind).
  apply (HP r0 rec); auto.
  apply list_elem_of_In, list_elem_of_lookup. eauto.
Qed.

(** X12.  Whatever calls are made on a store that started without a
    table, no stored record has a NULL in a price column or in volume:
    a row with a NaN price is left out by the insert, and a row with a
    missing volume never reaches it. *)
Theorem stored_records_have_no_null (L : Library) (files : gmap string file)
    (steps : list (Env * operation)) :
  let w := perform_all L steps {| raw_data := files; stock_daily_data := None |} in
  Forall (fun rec => not_null rec = true) (table w).
Proof.
  set (P := fun rec : Table.record => not_null rec = true).
  assert (Hload : forall df, respects (adds_only P) (load_data_to_db df)).
  { intros df. apply adds_only_load_data_to_db. auto. }
  assert (Hdump : forall file_path data,
            respects (adds_only P) (json_dump file_path data)).
  { intros file_path data w. apply adds_only_same_table, reads_only_json_dump. }
  assert (Hsetup : respects (adds_only P) setup_database).
  { intros w. apply adds_only_same_table, reads_only_setup_database. }
  assert (Hstep : forall w step, adds_only P w (perform L w step)).
  { intros w [E op]. unfold perform. simpl. destruct op.
    - apply Hsetup.
    - apply adds_only_same_table, reads_only_fetch_stock_data.
    - apply adds_only_same_table, reads_only_transform_data.
    - apply Hload.
    - apply (respects_run_etl_pipeline _ (adds_only_refl P) (adds_only_trans P));
        auto.
    - unfold main. destruct (not_key (API_KEY E)); [apply adds_only_refl|].
      apply (respects_run_etl_pipeline _ (adds_only_refl P) (adds_only_trans P));
        auto. }
  assert (Hall : forall steps0 w, adds_only P w (perform_all L steps0 w)).
  { induction steps0 as [|step steps0 IH]; intros w; simpl;
      [apply adds_only_refl|].
    eapply adds_only_trans; [apply Hstep | apply IH]. }
  cbv zeta. destruct (Hall steps {| raw_data := files; stock_daily_data := None |})
    as (added & -> & Hadded).
  exact Hadded.
Qed.


Lemma adds_only_impl (P Q : Table.record -> Prop) (w w' : World) :
  (forall rec, P rec -> Q rec) -> adds_only P w w' -> adds_only Q w w'.
Proof.
  intros HPQ (added & Heq & Hall). exists added. split; [exact Heq|].
  eapply Forall_impl; eassumption.
Qed.

Lemma transform_data_tags (L : Library) (E : Env) (file_path symbol : string)
    (w w' : World) (df : list DataFrame.row) :
  transform_data L E file_path symbol w = (Ok df, w') ->
  Forall (fun r => DataFrame.symbol r = symbol /\
                   DataFrame.extraction_timestamp r = now E) df.
Proof.
  intros Hrun. destruct df as [|r df]; [constructor|].
  destruct (transform_data_inv L E _ _ _ _ _ Hrun ltac:(discriminate))
    as (_ & data & series & df0 & opens & highs & lows & closes & volumes & dates
        & _ & _ & _ & _ & _ & _ & _ & _ & _ & ->).
  eapply Forall_impl; [apply assemble_derived|].
  intros r' (_ & Hs & Ht). auto.
Qed.

Lemma adds_only_process_symbol (L : Library) (E : Env) (symbol : string) :
  respects (adds_only (fun rec => Table.symbol rec = symbol /\
                                  Table.extraction_timestamp rec = now E))
           (process_symbol L E symbol).
Proof.
  intros w. unfold process_symbol, bind.
  pose proof (reads_only_fetch_stock_data L E symbol w) as Hfetch.
  destruct (fetch_stock_data L E symbol w) as [[[file_path|]|e] w1];
    cbn [snd] in *; try (apply adds_only_same_table, Hfetch).
  pose proof (transform_data_world L E file_path symbol w1) as Hworld.
  destruct (transform_data L E file_path symbol w1) as [[df|e] w2] eqn:Hrun;
    cbn [snd] in *; subst w2; [|apply adds_only_same_table, Hfetch].
  pose proof (transform_data_tags _ _ _ _ _ _ _ Hrun) as Htags.
  eapply adds_only_trans; [apply adds_only_same_table, Hfetch|].
  assert (Hload : respects (adds_only (fun rec => Table.symbol rec = symbol /\
                    Table.extraction_timestamp rec = now E)) (load_data_to_db df)).
  { apply adds_only_load_data_to_db. intros r rec Hin Hbind _.
    destruct (bind_parameters_record _ _ Hbind) as (_ & _ & Hs & Ht).
    rewrite List.Forall_forall in Htags. destruct (Htags r Hin) as [Hs' Ht'].
    split; congruence. }
  specialize (Hload w1).
  destruct (load_data_to_db df w1) as [[n|e] w3]; exact Hload.
Qed.

Lemma adds_only_for_symbols (L : Library) (E : Env) (symbols : list string) :
  respects (adds_only (fun rec => In (Table.symbol rec) symbols /\
                                  Table.extraction_timestamp rec = now E))
           (for_symbols L E symbols).
Proof.
  induction symbols as [|symbol symbols IH]; simpl; [intros w; apply adds_only_refl|].
  apply (respects_bind _ (adds_only_trans _)).
  - intros w. eapply adds_only_impl; [|apply adds_only_process_symbol].
    simpl. intros rec [Hs Ht]. auto.
  - intros _ w. eapply adds_only_impl; [|apply IH].
    simpl. intros rec [Hs Ht]. auto.
Qed.

(** X13.  The records a run of the pipeline adds all carry one of the
    configured symbols; the records that were stored before stay in
    front of them, unchanged. *)
Theorem run_adds_tagged_records (L : Library) (E : Env) (w : World) :
  exists added,
    table (run_etl_pipeline L E w).2 = table w ++ added /\
    Forall (fun rec => In (Table.symbol rec) SYMBOLS) added.
Proof.
  unfold run_etl_pipeline.
  apply (respects_bind _ (adds_only_trans _)).
  - intros w0. apply adds_only_same_table, reads_only_setup_database.
  - intros _ w0. eapply adds_only_impl; [|apply adds_only_for_symbols].
    simpl. intros rec [Hrec _]. exact Hrec.
Qed.


(** ** Running the pipeline again *)

Lemma snapshot_name_inj (E : Env) (s s' : string) :
  snapshot_name E s = snapshot_name E s' -> s = s'.
Proof.
  unfold snapshot_name. intros Heq.
  apply (f_equal list_ascii_of_string) in Heq.
  rewrite !list_ascii_of_string_app in Heq.
  apply app_inv_tail in Heq.
  rewrite <- (string_of_list_ascii_of_string s),
          <- (string_of_list_ascii_of_string s').
  now rewrite Heq.
Qed.

Lemma world_eta (w : World) :
  {| raw_data := raw_data w; stock_daily_data := stock_daily_data w |} = w.
Proof. destruct w. reflexivity. Qed.

Lemma insert_snapshot_id (w : World) (name : string) (f : file) :
  raw_data w !! name = Some f ->
  {| raw_data := <[name := f]> (raw_data w);
     stock_daily_data := stock_daily_data w |} = w.
Proof. intros Hf. rewrite insert_id by exact Hf. apply world_eta. Qed.

Section Again.

Variable L : Library.
Variable E : Env.

(** The server answers a symbol in the same way for both output sizes. *)
Hypothesis same_answer :
  forall symbol mode mode',
    requests_get E (fetch_params E symbol mode) =
    requests_get E (fetch_params E symbol mode').

(** What a fetch does is decided by the answer of the server, up to the
    one test on the name it writes. *)
Lemma fetch_stock_data_decided (symbol : string) :
  exists d : result (option json),
    forall w,
      fetch_stock_data L E symbol w =
      match d with
      | Raise e => (Raise e, w)
      | Ok None => (Ok None, w)
      | Ok (Some data) =>
          match raw_data w !! snapshot_name E symbol with
          | Some Unreadable => (Raise PermissionError, w)
          | _ =>
              (Ok (Some (snapshot_name E symbol)),
               {| raw_data := <[snapshot_name E symbol := Snapshot data]> (raw_data w);
                  stock_daily_data := stock_daily_data w |})
          end
      end.
Proof.
  assert (Hunfold : forall w,
            fetch_stock_data L E symbol w =
            try_except
              (let* data := lift (requests_get_json E (fetch_params E symbol "full")) in
               let* limited := lift (py_contains "Information" data) in
               let* _ :=
                 (if limited : bool
                  then let* info := lift (py_getitem data "Information") in
                       raise (RuntimeError info)
                  else ret tt) in
               let* _ := lift (model_validate L data) in
               let* _ := json_dump (snapshot_name E symbol) data in
               ret (Some (snapshot_name E symbol)))
              fetch_handled (ret None) w).
  { intros w. unfold fetch_stock_data at 1, bind at 1.
    destruct (output_size_returns symbol w) as [mode ->].
    unfold requests_get_json. rewrite (same_answer symbol mode "full"). reflexivity. }
  destruct (requests_get_json E (fetch_params E symbol "full")) as [data|e] eqn:Hget.
  2:{ apply requests_get_json_raises in Hget. subst e.
      exists (Ok None). intros w. rewrite Hunfold. reflexivity. }
  destruct (py_contains "Information" data) as [[|]|e] eqn:Hinfo.
  - destruct (py_getitem data "Information") as [info|e] eqn:Hitem.
    + exists (Raise (RuntimeError info)). intros w. rewrite Hunfold.
      unfold try_except, bind, lift, raise. rewrite Hinfo, Hitem. reflexivity.
    + destruct (py_getitem_raises _ _ _ Hitem) as [-> | ->].
      * exists (Ok None). intros w. rewrite Hunfold.
        unfold try_except, bind, lift, raise. rewrite Hinfo, Hitem. reflexivity.
      * exists (Raise TypeError). intros w. rewrite Hunfold.
        unfold try_except, bind, lift, raise. rewrite Hinfo, Hitem. reflexivity.
  - destruct (TimeSeriesData L data) eqn:Hval.
    + exists (Ok (Some data)). intros w. rewrite Hunfold.
      unfold try_except, bind, lift, ret, model_validate, json_dump.
      rewrite Hinfo, Hval.
      destruct (raw_data w !! snapshot_name E symbol) as [[]|]; reflexivity.
    + exists (Ok None). intros w. rewrite Hunfold.
      unfold try_except, bind, lift, ret, model_validate.
      rewrite Hinfo, Hval. reflexivity.
  - assert (e = TypeError) as ->.
    { destruct data; simpl in Hinfo; congruence. }
    exists (Raise TypeError). intros w. rewrite Hunfold.
    unfold try_except, bind, lift. rewrite Hinfo. reflexivity.
Qed.

(** A load whose keys are all stored already stores nothing. *)
Lemma load_data_to_db_again (df : list DataFrame.row) (w1 wl w2 : World)
    (rl : result (option nat)) :
  load_data_to_db df w1 = (rl, wl) ->
  is_Some (stock_daily_data w1) ->
  is_Some (stock_daily_data w2) ->
  (forall k, In k (map key (table wl)) -> In k (map key (table w2))) ->
  exists rl',
    load_data_to_db df w2 = (rl', w2) /\
    match rl, rl' with
    | Ok _, Ok _ => True
    | Raise e, Raise e' => e = e'
    | _, _ => False
    end.
Proof.
  intros Hload [t Ht] [t2 Ht2] Hkeys.
  destruct df as [|r df].
  { injection Hload as <- <-. exists (Ok None). split; [reflexivity | exact I]. }
  rewrite load_data_to_db_rows in *. rewrite Ht in Hload. rewrite Ht2.
  destruct (traverse bind_parameters (r :: df)) as [records|e].
  - injection Hload as <- <-. unfold table in Hkeys.
    cbn [stock_daily_data] in Hkeys. rewrite Ht2 in Hkeys.
    assert (Hsame : executemany t2 records = t2).
    { apply executemany_ignored. intros rec Hin.
      destruct (executemany_settles t records rec Hin); auto. }
    rewrite Hsame. exists (Ok (Some (length t2 - length t2)%nat)).
    split; [|exact I]. f_equal. rewrite <- Ht2. apply world_eta.
  - injection Hload as <- <-. exists (Raise e). split; reflexivity.
Qed.

Lemma load_data_to_db_files (df : list DataFrame.row) (w : World) :
  raw_data (load_data_to_db df w).2 = raw_data w.
Proof.
  destruct df as [|r df]; [reflexivity|]. rewrite load_data_to_db_rows.
  destruct (stock_daily_data w); [|reflexivity].
  destruct (traverse bind_parameters (r :: df)); reflexivity.
Qed.

(** Processing a symbol in a world that already holds what processing it
    once has left gives the same outcome and changes nothing. *)
Lemma process_symbol_replay (symbol : string) (r : result unit) (w wa w2 : World) :
  process_symbol L E symbol w = (r, wa) ->
  is_Some (stock_daily_data w) ->
  raw_data w2 !! snapshot_name E symbol = raw_data wa !! snapshot_name E symbol ->
  is_Some (stock_daily_data w2) ->
  (forall k, In k (map key (table wa)) -> In k (map key (table w2))) ->
  process_symbol L E symbol w2 = (r, w2).
Proof.
  intros Hrun Hstore Hfile Hstore2 Hkeys.
  destruct (fetch_stock_data_decided symbol) as [d Hd].
  unfold process_symbol, bind in *. rewrite Hd in *.
  destruct d as [[data|]|e].
  2:{ injection Hrun as <- <-. reflexivity. }
  2:{ injection Hrun as <- <-. reflexivity. }
  set (name := snapshot_name E symbol) in *.
  set (w1 := {| raw_data := <[name := Snapshot data]> (raw_data w);
                stock_daily_data := stock_daily_data w |}) in *.
  assert (Hcont :
    (let (r0, w0) := transform_data L E name symbol w1 in
     match r0 with
     | Ok a =>
         let (r1, w3) := load_data_to_db a w0 in
         match r1 with
         | Ok _ => ret tt w3
         | Raise e => (Raise e, w3)
         end
     | Raise e => (Raise e, w0)
     end) = (r, wa) ->
    raw_data w2 !! name = Some (Snapshot data) ->
    (let (r0, w0) := transform_data L E name symbol w2 in
     match r0 with
     | Ok a =>
         let (r1, w3) := load_data_to_db a w0 in
         match r1 with
         | Ok _ => ret tt w3
         | Raise e => (Raise e, w3)
         end
     | Raise e => (Raise e, w0)
     end) = (r, w2)).
  { intros Hrun1 Hfile2.
    pose proof (transform_data_world L E name symbol w1) as Hw1.
    pose proof (transform_data_world L E name symbol w2) as Hw2.
    assert (Hres : (transform_data L E name symbol w1).1 =
                   (transform_data L E name symbol w2).1).
    { apply transform_data_file. unfold w1. cbn [raw_data].
      rewrite lookup_insert_eq. now rewrite Hfile2. }
    destruct (transform_data L E name symbol w1) as [rt wt].
    destruct (transform_data L E name symbol w2) as [rt2 wt2].
    cbn [fst snd] in *. subst wt wt2 rt2.
    destruct rt as [df|e]; [|injection Hrun1 as <- <-; reflexivity].
    destruct (load_data_to_db df w1) as [rl wl] eqn:Hload.
    assert (Hwa : wa = wl) by (destruct rl; unfold ret in Hrun1; congruence).
    subst wl.
    destruct (load_data_to_db_again df w1 wa w2 rl Hload Hstore Hstore2 Hkeys)
      as (rl' & Hload2 & Hrel).
    rewrite Hload2. destruct rl, rl'; try contradiction; unfold ret in *.
    - injection Hrun1 as <-. reflexivity.
    - subst. injection Hrun1 as <-. reflexivity. }
  assert (Hsaved :
    (let (r0, w0) := transform_data L E name symbol w1 in
     match r0 with
     | Ok a =>
         let (r1, w3) := load_data_to_db a w0 in
         match r1 with
         | Ok _ => ret tt w3
         | Raise e => (Raise e, w3)
         end
     | Raise e => (Raise e, w0)
     end) = (r, wa) ->
    raw_data wa !! name = Some (Snapshot data)).
  { intros Hrun1.
    pose proof (transform_data_world L E name symbol w1) as Hw1.
    destruct (transform_data L E name symbol w1) as [rt wt].
    cbn [snd] in Hw1. subst wt.
    assert (Hin : raw_data w1 !! name = Some (Snapshot data)).
    { unfold w1. cbn [raw_data]. apply lookup_insert_eq. }
    destruct rt as [df|e]; [|injection Hrun1 as <- <-; exact Hin].
    pose proof (load_data_to_db_files df w1) as Hfiles.
    destruct (load_data_to_db df w1) as [rl wl]. cbn [snd] in Hfiles.
    assert (wa = wl) as -> by (destruct rl; unfold ret in Hrun1; congruence).
    rewrite Hfiles. exact Hin. }
  destruct (raw_data w !! name) as [f|] eqn:Hw; [destruct f as [d0| |]|].
  3:{ injection Hrun as <- <-. rewrite Hfile, Hw. reflexivity. }
  all: rewrite (Hsaved Hrun) in Hfile.
  all: rewrite Hfile, (insert_snapshot_id w2 name _ Hfile).
  all: apply Hcont; assumption.
Qed.

Lemma store_stays_process_symbol (symbol : string) (w : World) :
  is_Some (stock_daily_data w) ->
  is_Some (stock_daily_data (process_symbol L E symbol w).2).
Proof.
  revert w.
  apply (respects_process_symbol
           (fun w w' => is_Some (stock_daily_data w) ->
                        is_Some (stock_daily_data w'))).
  - auto.
  - auto.
  - intros data w. unfold json_dump.
    destruct (raw_data w !! snapshot_name E symbol) as [[]|]; auto.
  - intros df w [t Ht]. destruct df as [|r df]; [simpl; eauto|].
    rewrite load_data_to_db_rows, Ht.
    destruct (traverse bind_parameters (r :: df)); simpl; eauto.
Qed.

(** A symbol that is settled stays settled while another is processed. *)
Lemma settled_process_symbol (symbol other : string) (r0 r' : result unit)
    (w w' : World) :
  process_symbol L E symbol w = (r0, w) ->
  is_Some (stock_daily_data w) ->
  process_symbol L E other w = (r', w') ->
  process_symbol L E symbol w' = (r0, w').
Proof.
  intros Hdone Hstore Hother.
  destruct (String.eqb_spec symbol other) as [->|Hne]; [congruence|].
  assert (Hw' : w' = (process_symbol L E other w).2) by now rewrite Hother.
  apply (process_symbol_replay symbol r0 w w w' Hdone Hstore).
  - subst w'.
    apply (respects_process_symbol (files_kept [snapshot_name E other])
             (files_kept_refl _) (files_kept_trans _) L E other).
    + intros data. apply files_kept_json_dump. now left.
    + apply files_kept_load_data_to_db.
    + intros [Heq | []]. apply Hne. symmetry. eapply snapshot_name_inj, Heq.
  - subst w'. apply store_stays_process_symbol, Hstore.
  - subst w'. destruct (monotone_process_symbol L E other w) as [[added ->] _].
    intros k Hk. rewrite map_app, in_app_iff. now left.
Qed.

Lemma settled_for_symbols (symbol : string) (r0 : result unit)
    (symbols : list string) :
  forall (w w1 : World) (r : result unit),
  process_symbol L E symbol w = (r0, w) ->
  is_Some (stock_daily_data w) ->
  for_symbols L E symbols w = (r, w1) ->
  process_symbol L E symbol w1 = (r0, w1).
Proof.
  induction symbols as [|other symbols IH]; intros w w1 r Hdone Hstore Hloop.
  - injection Hloop as <- <-. exact Hdone.
  - simpl in Hloop. unfold bind in Hloop.
    destruct (process_symbol L E other w) as [r' w'] eqn:Hother.
    pose proof (settled_process_symbol _ _ _ _ _ _ Hdone Hstore Hother) as Hdone'.
    destruct r' as [[]|e].
    + apply (IH w' w1 r Hdone'); [|exact Hloop].
      replace w' with (process_symbol L E other w).2 by now rewrite Hother.
      apply store_stays_process_symbol, Hstore.
    + injection Hloop as <- <-. exact Hdone'.
Qed.

Lemma for_symbols_again (symbols : list string) :
  forall (w w1 : World) (r : result unit),
  is_Some (stock_daily_data w) ->
  for_symbols L E symbols w = (r, w1) ->
  for_symbols L E symbols w1 = (r, w1).
Proof.
  induction symbols as [|symbol symbols IH]; intros w w1 r Hstore Hloop.
  - injection Hloop as <- <-. reflexivity.
  - simpl in *. unfold bind in *.
    destruct (process_symbol L E symbol w) as [r0 wa] eqn:Hfirst.
    assert (Hstore_a : is_Some (stock_daily_data wa)).
    { replace wa with (process_symbol L E symbol w).2 by now rewrite Hfirst.
      apply store_stays_process_symbol, Hstore. }
    assert (Hdone : process_symbol L E symbol wa = (r0, wa)).
    { apply (process_symbol_replay symbol r0 w wa wa Hfirst Hstore);
        auto. }
    destruct r0 as [[]|e].
    + rewrite (settled_for_symbols symbol (Ok tt) symbols wa w1 r Hdone Hstore_a Hloop).
      apply (IH wa w1 r Hstore_a Hloop).
    + injection Hloop as <- <-. rewrite Hdone. reflexivity.
Qed.

Lemma run_etl_pipeline_again (w : World) :
  run_etl_pipeline L E (run_etl_pipeline L E w).2 = run_etl_pipeline L E w.
Proof.
  unfold run_etl_pipeline, bind.
  set (ws := (setup_database w).2).
  assert (Hsetup : setup_database w = (Ok tt, ws)) by reflexivity.
  assert (Hstore : is_Some (stock_daily_data ws)).
  { unfold ws, setup_database. simpl. destruct (stock_daily_data w); eauto. }
  rewrite Hsetup.
  destruct (for_symbols L E SYMBOLS ws) as [r w1] eqn:Hloop. cbn [snd].
  assert (Hstore1 : is_Some (stock_daily_data w1)).
  { revert Hstore. replace w1 with (for_symbols L E SYMBOLS ws).2 by now rewrite Hloop.
    generalize ws. clear.
    induction SYMBOLS as [|symbol symbols IH]; intros w0 H0; simpl; [exact H0|].
    unfold bind. pose proof (store_stays_process_symbol symbol w0 H0) as H1.
    destruct (process_symbol L E symbol w0) as [[[]|e] w']; cbn [snd] in *; auto. }
  assert (Hsetup1 : setup_database w1 = (Ok tt, w1)).
  { destruct Hstore1 as [t Ht]. unfold setup_database. rewrite Ht, <- Ht.
    f_equal. apply world_eta. }
  rewrite Hsetup1. apply (for_symbols_again SYMBOLS ws w1 r Hstore Hloop).
Qed.

End Again.

(** X14.  Running the pipeline a second time, in the world the first run
    has left and with a server that answers a symbol in the same way for
    both output sizes, has the outcome of the first run and changes
    nothing: the same snapshots are written again and no record is
    added. *)
Theorem second_run_changes_nothing (L : Library) (E : Env) (w : World) :
  (forall symbol mode mode',
     requests_get E (fetch_params E symbol mode) =
     requests_get E (fetch_params E symbol mode')) ->
  let first := run_etl_pipeline L E w in
  run_etl_pipeline L E first.2 = (first.1, first.2).
Proof.
  intros Hsame first. unfold first.
  rewrite (run_etl_pipeline_again L E Hsame w).
  destruct (run_etl_pipeline L E w). reflexivity.
Qed.

Lemma second_run_changes_nothing_witness :
  let E := sample_env (Some "demo") (server_down_for "GOOG") in
  let first := run_etl_pipeline sample_library E fresh in
  (forall symbol mode mode',
     requests_get E (fetch_params E symbol mode) =
     requests_get E (fetch_params E symbol mode')) /\
  length (table first.2) = 4%nat /\
  run_etl_pipeline sample_library E first.2 = (first.1, first.2).
Proof.
  intros E first.
  assert (Hsame : forall symbol mode mode',
            requests_get E (fetch_params E symbol mode) =
            requests_get E (fetch_params E symbol mode'))
    by (intros symbol mode mode'; reflexivity).
  split; [exact Hsame|]. split; [vm_compute; reflexivity|].
  exact (second_run_changes_nothing sample_library E fresh Hsame).
Defined.


(** ** A series without days *)

(** X15.  A payload whose series is an empty dict passes validation: its
    snapshot is saved, the transform finds no column and returns no row,
    the load has nothing to do, and the symbol ends without an exception
    and without a stored record. *)
Theorem empty_series_is_saved_not_stored (L : Library) (E : Env) (symbol : string)
    (w : World) (d : list (string * json)) :
  (forall p, p_symbol p = symbol -> requests_get_json E p = Ok (JObj d)) ->
  dict_get "Information" d = None ->
  dict_get "Time Series (Daily)" d = Some (JObj []) ->
  raw_data w !! snapshot_name E symbol <> Some Unreadable ->
  process_symbol L E symbol w =
    (Ok tt,
     {| raw_data := <[snapshot_name E symbol := Snapshot (JObj d)]> (raw_data w);
        stock_daily_data := stock_daily_data w |}).
Proof.
  intros Hget Hinfo Hseries Hfile.
  unfold process_symbol, bind.
  rewrite (fetch_stock_data_valid L E symbol w (JObj d) Hget).
  - unfold transform_data, try_except, bind, lift, json_load. cbn [raw_data].
    rewrite lookup_insert_eq. unfold py_getitem. rewrite Hseries. reflexivity.
  - unfold py_contains. rewrite Hinfo. reflexivity.
  - unfold TimeSeriesData. rewrite Hseries. reflexivity.
  - exact Hfile.
Qed.

Lemma empty_series_is_saved_not_stored_witness :
  let d := [("Meta Data", JObj []); ("Time Series (Daily)", JObj [])] in
  let E := sample_env (Some "demo") (fun _ => HttpResponse 200 (Some (JObj d))) in
  let w := {| raw_data := ∅; stock_daily_data := Some [] |} in
  ((forall p, p_symbol p = "AAPL" -> requests_get_json E p = Ok (JObj d)) /\
   dict_get "Information" d = None /\
   dict_get "Time Series (Daily)" d = Some (JObj []) /\
   raw_data w !! snapshot_name E "AAPL" <> Some Unreadable) /\
  process_symbol sample_library E "AAPL" w =
    (Ok tt,
     {| raw_data := <[snapshot_name E "AAPL" := Snapshot (JObj d)]> (raw_data w);
        stock_daily_data := stock_daily_data w |}).
Proof.
  intros d E w.
  assert (Hget : forall p, p_symbol p = "AAPL" -> requests_get_json E p = Ok (JObj d))
    by (intros p _; reflexivity).
  assert (Hfile : raw_data w !! snapshot_name E "AAPL" <> Some Unreadable)
    by (vm_compute; discriminate).
  split; [split; [exact Hget | split; [reflexivity | split; [reflexivity | exact Hfile]]]|].
  exact (empty_series_is_saved_not_stored sample_library E "AAPL" w d Hget
           eq_refl eq_refl Hfile).
Defined.

(** ** The values a load stores *)


